(** * gf.sim.SpatialEntity: replicated spatial state and lazy transform cache

    A shallow embedding of [src/gf/sim/spatialentity.js] and the properties
    its specification states about it.

    Numbers.  A JavaScript number is modelled as [NaN], an infinity or an
    exact rational.  The one product this file computes itself (the radius
    of the bounding sphere) is rounded to a double and then, on its store
    into a Float32Array, to a float32, as IEEE 754 prescribes.  The linear
    algebra of [goog.vec] and [gf.vec] happens outside this file and is
    modelled as the exact matrix arithmetic those libraries document.  The
    sign of zero, which no operation of this file can observe, is not
    modelled.  The setters take arrays of the declared Float32 types, whose
    elements are copied without rounding.

    Objects.  Entities live in a heap indexed by references, so that
    [getParent()] returns a reference (or null) and [!=] between entities is
    reference comparison, as in the source.  The observable calls this file
    makes to collaborators that are not part of it ([gf.log.write],
    [parent.childTransformed]) are recorded in a trace. *)

From Stdlib Require Import QArith Qcanon ZArith String List.
From stdpp Require Import base numbers gmap list.

Local Open Scope string_scope.

(** ** JavaScript numbers *)

Module JS.

Inductive number : Type :=
| NaN
| Inf (negative : bool)
| Num (q : Qc).

Definition of_Z (z : Z) : number := Num (Q2Qc (inject_Z z)).

Definition add (a b : number) : number :=
  match a, b with
  | Num x, Num y => Num (x + y)%Qc
  | Inf s, Inf s' => if Bool.eqb s s' then Inf s else NaN
  | Inf s, Num _ | Num _, Inf s => Inf s
  | _, _ => NaN
  end.

Definition sub (a b : number) : number :=
  match a, b with
  | Num x, Num y => Num (x - y)%Qc
  | Inf s, Inf s' => if Bool.eqb s s' then NaN else Inf s
  | Inf s, Num _ => Inf s
  | Num _, Inf s => Inf (negb s)
  | _, _ => NaN
  end.

(** The product, before any rounding. *)
Definition mul (a b : number) : number :=
  match a, b with
  | Num x, Num y => Num (x * y)%Qc
  | Inf s, Inf s' => Inf (xorb s s')
  | Inf s, Num y | Num y, Inf s =>
      if bool_decide (y = 0%Qc) then NaN
      else Inf (xorb s (bool_decide (y < 0)%Qc))
  | _, _ => NaN
  end.

(** [Math.max(a, b)]: NaN as soon as one argument is NaN. *)
Definition Math_max (a b : number) : number :=
  match a, b with
  | NaN, _ | _, NaN => NaN
  | Inf false, _ | _, Inf false => Inf false
  | Inf true, c | c, Inf true => c
  | Num x, Num y => Num (if decide (x < y)%Qc then y else x)
  end.

(** [a == b] on two numbers: NaN is equal to nothing, itself included. *)
Definition eq (a b : number) : bool :=
  match a, b with
  | Num x, Num y => bool_decide (x = y)
  | Inf s, Inf s' => Bool.eqb s s'
  | _, _ => false
  end.

(** [a != b] on two numbers. *)
Definition ne (a b : number) : bool := negb (eq a b).

(** [ToBoolean] of a number: false exactly for zero and NaN. *)
Definition ToBoolean (a : number) : bool :=
  match a with
  | NaN => false
  | Inf _ => true
  | Num x => negb (bool_decide (x = 0%Qc))
  end.

(** [!a] for a number [a]. *)
Definition not (a : number) : bool := negb (ToBoolean a).

(** [ToNumber] of a boolean: the coercion [==] and [!=] apply to a boolean
    operand before comparing it with a number. *)
Definition ToNumber (b : bool) : number :=
  if b then of_Z 1 else of_Z 0.

(** [b != a] for a boolean [b] and a number [a]. *)
Definition bool_ne (b : bool) (a : number) : bool := ne (ToNumber b) a.

(** *** IEEE 754 rounding

    A binary format has [prec] significant bits and exponents below [emax]:
    53 and 1024 for a double, 24 and 128 for a float32. *)

(** The integer nearest to [p / q], the even one on a tie ([0 <= p],
    [0 < q]). *)
Definition round_half_even (p q : Z) : Z :=
  let f := (p / q)%Z in
  let r := (p mod q)%Z in
  match (2 * r ?= q)%Z with
  | Lt => f
  | Gt => (f + 1)%Z
  | Datatypes.Eq => if Z.even f then f else (f + 1)%Z
  end.

(** Whether [2 ^ k <= n / d] ([0 < n], [0 < d]; [k] may be negative). *)
Definition ge_pow2 (n d k : Z) : bool :=
  if (0 <=? k)%Z then (d * 2 ^ k <=? n)%Z else (d <=? n * 2 ^ (- k))%Z.

(** Round a rational to the format, to nearest, ties to even: [e] is the
    binary exponent of [q], [2 ^ qe] the spacing of the format's values
    around [q] (the subnormal spacing below the normal range), [m] the
    number of spacings nearest to [q].  A result of [2 ^ emax] or more is
    an infinity. *)
Definition round_binary (prec emax : Z) (q : Qc) : number :=
  let n := Qnum q in
  let d := Zpos (Qden q) in
  if (n =? 0)%Z then Num q
  else
    let a := Z.abs n in
    let e0 := (Z.log2 a - Z.log2 d)%Z in
    let e := if ge_pow2 a d e0 then e0 else (e0 - 1)%Z in
    let qe := Z.max (e - prec + 1) (3 - emax - prec) in
    let m :=
      if (0 <=? qe)%Z then round_half_even a (d * 2 ^ qe)
      else round_half_even (a * 2 ^ (- qe)) d in
    if (0 <=? qe)%Z && (2 ^ emax <=? m * 2 ^ qe)%Z then Inf (n <? 0)%Z
    else
      Num (Q2Qc (Qmake (Z.sgn n * m * 2 ^ Z.max qe 0)
                   (Z.to_pos (2 ^ Z.max (- qe) 0)))).

(** The double nearest to a number: the rounding every arithmetic operation
    of JavaScript applies to its exact result. *)
Definition round64 (a : number) : number :=
  match a with
  | Num q => round_binary 53 1024 q
  | _ => a
  end.

(** The float32 nearest to a number ([Math.fround]): the conversion a store
    into a Float32Array applies. *)
Definition fround (a : number) : number :=
  match a with
  | Num q => round_binary 24 128 q
  | _ => a
  end.

(** [a * b] as JavaScript computes it. *)
Definition times (a b : number) : number := round64 (mul a b).

End JS.

Declare Scope js_scope.
Delimit Scope js_scope with js.
Bind Scope js_scope with JS.number.
Notation "a + b" := (JS.add a b) : js_scope.
Notation "a - b" := (JS.sub a b) : js_scope.
Notation "a * b" := (JS.mul a b) : js_scope.
Notation "a == b" := (JS.eq a b) (at level 70, no associativity) : js_scope.
Notation "0" := (JS.of_Z 0) : js_scope.
Notation "1" := (JS.of_Z 1) : js_scope.
Notation "2" := (JS.of_Z 2) : js_scope.

Import JS (number, NaN, Num).

Global Instance number_eq_dec : EqDecision number.
Proof. solve_decision. Defined.

(** ** Closure Library vectors and matrices ([goog.vec])

  [goog.vec] is the Closure Library, a dependency that lives outside this
  repository.  The functions below follow its documented behaviour on
  fixed-length typed arrays; arrays are records, one field per index. *)

Module Vec3.

Record t : Type := make { i0 : number; i1 : number; i2 : number }.

(** [goog.vec.Vec3.createFloat32()]: a fresh zero-filled array. *)
Definition createFloat32 : t := make 0%js 0%js 0%js.

(** [goog.vec.Vec3.equals(v0, v1)]: component-wise [==]. *)
Definition equals (v0 v1 : t) : bool :=
  (i0 v0 == i0 v1)%js && (i1 v0 == i1 v1)%js && (i2 v0 == i2 v1)%js.

(** [goog.vec.Vec3.setFromArray(vec, values)]: overwrite the three
    components of [vec]; the updated [vec] is returned. *)
Definition setFromArray (vec values : t) : t :=
  make (i0 values) (i1 values) (i2 values).

End Vec3.

Module Vec4.

Record t : Type :=
  make { i0 : number; i1 : number; i2 : number; i3 : number }.

(** [goog.vec.Vec4.createFloat32()]. *)
Definition createFloat32 : t := make 0%js 0%js 0%js 0%js.

(** [goog.vec.Vec4.equals(v0, v1)]. *)
Definition equals (v0 v1 : t) : bool :=
  (i0 v0 == i0 v1)%js && (i1 v0 == i1 v1)%js &&
  (i2 v0 == i2 v1)%js && (i3 v0 == i3 v1)%js.

(** [goog.vec.Vec4.setFromArray(vec, values)]. *)
Definition setFromArray (vec values : t) : t :=
  make (i0 values) (i1 values) (i2 values) (i3 values).

End Vec4.

Module Mat4.

(** A 4x4 matrix stored column-major in a 16-element array: index
    [4 * column + row]. *)
Record t : Type := make {
  i0 : number;  i1 : number;  i2 : number;  i3 : number;
  i4 : number;  i5 : number;  i6 : number;  i7 : number;
  i8 : number;  i9 : number;  i10 : number; i11 : number;
  i12 : number; i13 : number; i14 : number; i15 : number }.

(** [goog.vec.Mat4.createFloat32()]: sixteen zeros. *)
Definition createFloat32 : t :=
  make 0%js 0%js 0%js 0%js 0%js 0%js 0%js 0%js
       0%js 0%js 0%js 0%js 0%js 0%js 0%js 0%js.

(** [goog.vec.Mat4.setFromArray(mat, values)]. *)
Definition setFromArray (mat values : t) : t :=
  make (i0 values) (i1 values) (i2 values) (i3 values)
       (i4 values) (i5 values) (i6 values) (i7 values)
       (i8 values) (i9 values) (i10 values) (i11 values)
       (i12 values) (i13 values) (i14 values) (i15 values).

(** [goog.vec.Mat4.multMat(mat0, mat1, resultMat)]: the matrix product
    [mat0 * mat1]. *)
Definition multMat (mat0 mat1 : t) : t :=
  let a00 := i0 mat0 in let a10 := i1 mat0 in
  let a20 := i2 mat0 in let a30 := i3 mat0 in
  let a01 := i4 mat0 in let a11 := i5 mat0 in
  let a21 := i6 mat0 in let a31 := i7 mat0 in
  let a02 := i8 mat0 in let a12 := i9 mat0 in
  let a22 := i10 mat0 in let a32 := i11 mat0 in
  let a03 := i12 mat0 in let a13 := i13 mat0 in
  let a23 := i14 mat0 in let a33 := i15 mat0 in
  let b00 := i0 mat1 in let b10 := i1 mat1 in
  let b20 := i2 mat1 in let b30 := i3 mat1 in
  let b01 := i4 mat1 in let b11 := i5 mat1 in
  let b21 := i6 mat1 in let b31 := i7 mat1 in
  let b02 := i8 mat1 in let b12 := i9 mat1 in
  let b22 := i10 mat1 in let b32 := i11 mat1 in
  let b03 := i12 mat1 in let b13 := i13 mat1 in
  let b23 := i14 mat1 in let b33 := i15 mat1 in
  (make
    (a00 * b00 + a01 * b10 + a02 * b20 + a03 * b30)
    (a10 * b00 + a11 * b10 + a12 * b20 + a13 * b30)
    (a20 * b00 + a21 * b10 + a22 * b20 + a23 * b30)
    (a30 * b00 + a31 * b10 + a32 * b20 + a33 * b30)
    (a00 * b01 + a01 * b11 + a02 * b21 + a03 * b31)
    (a10 * b01 + a11 * b11 + a12 * b21 + a13 * b31)
    (a20 * b01 + a21 * b11 + a22 * b21 + a23 * b31)
    (a30 * b01 + a31 * b11 + a32 * b21 + a33 * b31)
    (a00 * b02 + a01 * b12 + a02 * b22 + a03 * b32)
    (a10 * b02 + a11 * b12 + a12 * b22 + a13 * b32)
    (a20 * b02 + a21 * b12 + a22 * b22 + a23 * b32)
    (a30 * b02 + a31 * b12 + a32 * b22 + a33 * b32)
    (a00 * b03 + a01 * b13 + a02 * b23 + a03 * b33)
    (a10 * b03 + a11 * b13 + a12 * b23 + a13 * b33)
    (a20 * b03 + a21 * b13 + a22 * b23 + a23 * b33)
    (a30 * b03 + a31 * b13 + a32 * b23 + a33 * b33))%js.

(** [goog.vec.Mat4.makeTranslate(mat, x, y, z)]: the translation matrix. *)
Definition makeTranslate (x y z : number) : t :=
  make 1%js 0%js 0%js 0%js
       0%js 1%js 0%js 0%js
       0%js 0%js 1%js 0%js
       x y z 1%js.

(** [goog.vec.Mat4.makeScale(mat, x, y, z)]: the scaling matrix. *)
Definition makeScale (x y z : number) : t :=
  make x 0%js 0%js 0%js
       0%js y 0%js 0%js
       0%js 0%js z 0%js
       0%js 0%js 0%js 1%js.

(** [goog.vec.Mat4.multVec3(mat, vec, resultVec)]: the image of the point
    [vec] (homogeneous coordinate 1) under [mat]. *)
Definition multVec3 (mat : t) (vec : Vec3.t) : Vec3.t :=
  let x := Vec3.i0 vec in
  let y := Vec3.i1 vec in
  let z := Vec3.i2 vec in
  Vec3.make
    (x * i0 mat + y * i4 mat + z * i8 mat + i12 mat)%js
    (x * i1 mat + y * i5 mat + z * i9 mat + i13 mat)%js
    (x * i2 mat + y * i6 mat + z * i10 mat + i14 mat)%js.

End Mat4.

Module Quaternion.

(** A quaternion is a four-element array [x, y, z, w]. *)
Definition t : Type := Vec4.t.

(** [goog.vec.Quaternion.createFloat32()]. *)
Definition createFloat32 : t := Vec4.createFloat32.

(** [goog.vec.Quaternion.setFromArray(quat, values)]. *)
Definition setFromArray (quat values : t) : t :=
  Vec4.setFromArray quat values.

(** [goog.vec.Quaternion.toRotationMatrix4(quat, mat)]: every element of
    [mat] is overwritten. *)
Definition toRotationMatrix4 (quat : t) : Mat4.t :=
  let x := Vec4.i0 quat in
  let y := Vec4.i1 quat in
  let z := Vec4.i2 quat in
  let w := Vec4.i3 quat in
  let x2 := (2 * x)%js in
  let y2 := (2 * y)%js in
  let z2 := (2 * z)%js in
  let wx := (x2 * w)%js in
  let wy := (y2 * w)%js in
  let wz := (z2 * w)%js in
  let xx := (x2 * x)%js in
  let xy := (y2 * x)%js in
  let xz := (z2 * x)%js in
  let yy := (y2 * y)%js in
  let yz := (z2 * y)%js in
  let zz := (z2 * z)%js in
  (Mat4.make
    (1 - (yy + zz)) (xy + wz) (xz - wy) 0
    (xy - wz) (1 - (xx + zz)) (yz + wx) 0
    (xz + wy) (yz - wx) (1 - (xx + yy)) 0
    0 0 0 1)%js.

End Quaternion.

(** ** gf.vec.Mat4 *)

Module gf_vec_Mat4.

(** Modelled from the spec: [gf/vec/mat4.js] is not among the sources.  The
    specification describes these helpers as the scale and translate
    compositions of the matrix library; by name and argument order
    [multScalePost(mat, x, y, z, resultMat)] multiplies [mat] by a scaling
    matrix on the right. *)
Definition multScalePost (mat : Mat4.t) (x y z : number) : Mat4.t :=
  Mat4.multMat mat (Mat4.makeScale x y z).

(** Modelled from the spec: [gf/vec/mat4.js] is not among the sources.
    [multTranslationPre(x, y, z, mat, resultMat)] multiplies [mat] by a
    translation matrix on the left. *)
Definition multTranslationPre (x y z : number) (mat : Mat4.t) : Mat4.t :=
  Mat4.multMat (Mat4.makeTranslate x y z) mat.

End gf_vec_Mat4.

(** ** Objects, heap and trace *)

(** An object reference. JavaScript [null] is [None] in [option ref]. *)
Definition ref : Type := positive.

(** The position of a replicated variable in its variable table. *)
Definition ordinal : Type := N.

(** Modelled from the spec: [gf.sim.EntityState] is not among the sources.
    The specification gives it the dirty-bit storage of a state: one bit per
    ordinal, set by [setVariableDirty(ordinal)]. *)
Record EntityState : Type := { dirtyBits : gset ordinal }.

(** Modelled from the spec: [gf.sim.EntityState.prototype.setVariableDirty]. *)
Definition EntityState_setVariableDirty
    (o : ordinal) (s : EntityState) : EntityState :=
  {| dirtyBits := {[ o ]} ∪ dirtyBits s |}.

(** [gf.sim.SpatialEntity.State]: the fields the constructor declares, on top
    of those of its base class.  A state belongs to one entity and is stored
    inside it, so its back pointer [this.entity] is the entity holding it. *)
Record State : Type := {
  super_ : EntityState;
  position_ : Vec3.t;
  positionOrdinal_ : ordinal;
  rotation_ : Quaternion.t;
  rotationOrdinal_ : ordinal;
  scale_ : Vec3.t;
  scaleOrdinal_ : ordinal;
  boundingRadius_ : number;
  boundingRadiusOrdinal_ : ordinal }.

(** Modelled from the spec: [gf.sim.Entity] is not among the sources.  Of the
    base entity this file uses the parent link read by [getParent()] and
    whether the object has a [childTransformed] method. *)
Record Entity : Type := {
  parent_ : option ref;
  childTransformed : bool }.

(** [gf.sim.SpatialEntity]: the fields the constructor declares, the base
    entity and the state returned by [getState()]. *)
Record SpatialEntity : Type := {
  entity_ : Entity;
  state_ : State;
  transformDirty_ : bool;
  boundingSphere_ : Vec4.t;
  transform_ : Mat4.t }.

(** What a reference points to: a spatial entity, or an entity of another
    class (for which [instanceof gf.sim.SpatialEntity] is false). *)
Inductive Object : Type :=
| Spatial (e : SpatialEntity)
| Plain (b : Entity).

(** Calls that leave this file. *)
Inductive Event : Type :=
| LogWrite (label : string) (args : list number)
| ChildTransformed (parent child : ref).

Record World : Type := {
  heap : gmap ref Object;
  trace : list Event }.

Definition base_of (o : Object) : Entity :=
  match o with
  | Spatial e => entity_ e
  | Plain b => b
  end.

(** The spatial entity a reference points to, if it points to one. *)
Definition spatial (w : World) (r : ref) : option SpatialEntity :=
  match heap w !! r with
  | Some (Spatial e) => Some e
  | _ => None
  end.

(** Write back the fields of the spatial entity at [r]. *)
Definition store (r : ref) (e : SpatialEntity) (w : World) : World :=
  {| heap := <[ r := Spatial e ]> (heap w); trace := trace w |}.

Definition emit (ev : Event) (w : World) : World :=
  {| heap := heap w; trace := trace w ++ [ev] |}.

(** [gf.log.write(label, ...)]: the log is outside this file. *)
Definition gf_log_write
    (label : string) (args : list number) (w : World) : World :=
  emit (LogWrite label args) w.

(** [r.getParent()], from [gf.sim.Entity]. *)
Definition getParent (w : World) (r : ref) : option ref :=
  match heap w !! r with
  | Some o => parent_ (base_of o)
  | None => None
  end.

(** The test [parent && parent.childTransformed]. *)
Definition has_childTransformed (w : World) (p : option ref) : bool :=
  match p with
  | Some r =>
      match heap w !! r with
      | Some o => childTransformed (base_of o)
      | None => false
      end
  | None => false
  end.

(** Field assignments. *)

Definition set_super_ (v : EntityState) (s : State) : State :=
  {| super_ := v;
     position_ := position_ s; positionOrdinal_ := positionOrdinal_ s;
     rotation_ := rotation_ s; rotationOrdinal_ := rotationOrdinal_ s;
     scale_ := scale_ s; scaleOrdinal_ := scaleOrdinal_ s;
     boundingRadius_ := boundingRadius_ s;
     boundingRadiusOrdinal_ := boundingRadiusOrdinal_ s |}.

Definition set_position_ (v : Vec3.t) (s : State) : State :=
  {| super_ := super_ s;
     position_ := v; positionOrdinal_ := positionOrdinal_ s;
     rotation_ := rotation_ s; rotationOrdinal_ := rotationOrdinal_ s;
     scale_ := scale_ s; scaleOrdinal_ := scaleOrdinal_ s;
     boundingRadius_ := boundingRadius_ s;
     boundingRadiusOrdinal_ := boundingRadiusOrdinal_ s |}.

Definition set_rotation_ (v : Quaternion.t) (s : State) : State :=
  {| super_ := super_ s;
     position_ := position_ s; positionOrdinal_ := positionOrdinal_ s;
     rotation_ := v; rotationOrdinal_ := rotationOrdinal_ s;
     scale_ := scale_ s; scaleOrdinal_ := scaleOrdinal_ s;
     boundingRadius_ := boundingRadius_ s;
     boundingRadiusOrdinal_ := boundingRadiusOrdinal_ s |}.

Definition set_scale_ (v : Vec3.t) (s : State) : State :=
  {| super_ := super_ s;
     position_ := position_ s; positionOrdinal_ := positionOrdinal_ s;
     rotation_ := rotation_ s; rotationOrdinal_ := rotationOrdinal_ s;
     scale_ := v; scaleOrdinal_ := scaleOrdinal_ s;
     boundingRadius_ := boundingRadius_ s;
     boundingRadiusOrdinal_ := boundingRadiusOrdinal_ s |}.

Definition set_boundingRadius_ (v : number) (s : State) : State :=
  {| super_ := super_ s;
     position_ := position_ s; positionOrdinal_ := positionOrdinal_ s;
     rotation_ := rotation_ s; rotationOrdinal_ := rotationOrdinal_ s;
     scale_ := scale_ s; scaleOrdinal_ := scaleOrdinal_ s;
     boundingRadius_ := v;
     boundingRadiusOrdinal_ := boundingRadiusOrdinal_ s |}.

Definition set_state_ (v : State) (e : SpatialEntity) : SpatialEntity :=
  {| entity_ := entity_ e; state_ := v;
     transformDirty_ := transformDirty_ e;
     boundingSphere_ := boundingSphere_ e; transform_ := transform_ e |}.

Definition set_transformDirty_ (v : bool) (e : SpatialEntity) : SpatialEntity :=
  {| entity_ := entity_ e; state_ := state_ e;
     transformDirty_ := v;
     boundingSphere_ := boundingSphere_ e; transform_ := transform_ e |}.

Definition set_boundingSphere_
    (v : Vec4.t) (e : SpatialEntity) : SpatialEntity :=
  {| entity_ := entity_ e; state_ := state_ e;
     transformDirty_ := transformDirty_ e;
     boundingSphere_ := v; transform_ := transform_ e |}.

Definition set_transform_ (v : Mat4.t) (e : SpatialEntity) : SpatialEntity :=
  {| entity_ := entity_ e; state_ := state_ e;
     transformDirty_ := transformDirty_ e;
     boundingSphere_ := boundingSphere_ e; transform_ := v |}.

(** Run [f] on the fields of the spatial entity at [this].  A method is only
    ever invoked on an object of its class; through any other reference the
    world is left as it is. *)
Definition modify
    (this : ref) (f : SpatialEntity -> SpatialEntity) (w : World) : World :=
  match spatial w this with
  | Some e => store this (f e) w
  | None => w
  end.

(** ** gf.sim.SpatialEntity *)

(** The constructor, after [goog.base] has built the base entity [super] and
    its state. *)
Definition SpatialEntity_new (super : Entity) (state : State) : SpatialEntity :=
  {| entity_ := super;
     state_ := state;
     transformDirty_ := true;
     boundingSphere_ := Vec4.createFloat32;
     transform_ := Mat4.createFloat32 |}.

Definition postNetworkUpdate (this : ref) (w : World) : World :=
  modify this (set_transformDirty_ true) w.

Definition invalidateTransform (this : ref) (w : World) : World :=
  modify this (set_transformDirty_ true) w.

(** [state.setVariableDirty(ordinal)] on the state of the entity at [this]. *)
Definition setVariableDirty (this : ref) (o : ordinal) (w : World) : World :=
  modify this
    (fun e =>
       set_state_
         (set_super_ (EntityState_setVariableDirty o (super_ (state_ e)))
            (state_ e)) e) w.

Definition getState (e : SpatialEntity) : State := state_ e.

(** The getters of the state.  In the source the three array getters return
    the state's own array, not a copy; here a getter gives the contents read
    at the call, and a write by [getBoundingSphere] into the array
    [getRotation] handed out is followed by [getBoundingSphere_at] below. *)
Definition getPosition (s : State) : Vec3.t := position_ s.
Definition getRotation (s : State) : Quaternion.t := rotation_ s.
Definition getScale (s : State) : Vec3.t := scale_ s.
Definition getBoundingRadius (s : State) : number := boundingRadius_ s.

Definition updateTransform (this : ref) (w : World) : World :=
  match spatial w this with
  | None => w
  | Some e =>
      if negb (transformDirty_ e) then w
      else
        let w := modify this (set_transformDirty_ false) w in
        let state := getState e in
        let position := getPosition state in
        let rotation := getRotation state in
        let scale := getScale state in
        (* Bounding sphere *)
        let w :=
          modify this
            (set_boundingSphere_
               (Vec4.make
                  (Vec3.i0 position) (Vec3.i1 position) (Vec3.i2 position)
                  (JS.fround
                     (JS.times (getBoundingRadius state)
                        (JS.Math_max (Vec3.i0 scale)
                           (JS.Math_max (Vec3.i1 scale)
                              (Vec3.i2 scale))))))) w in
        (* Transform *)
        let transform := Quaternion.toRotationMatrix4 rotation in
        let transform :=
          gf_vec_Mat4.multScalePost transform
            (Vec3.i0 scale) (Vec3.i1 scale) (Vec3.i2 scale) in
        let transform :=
          gf_vec_Mat4.multTranslationPre
            (Vec3.i0 position) (Vec3.i1 position) (Vec3.i2 position)
            transform in
        let w := modify this (set_transform_ transform) w in
        (* Notify parent scene that this transform changed *)
        let parent := getParent w this in
        match parent with
        | Some p =>
            if has_childTransformed w parent
            then emit (ChildTransformed p this) w
            else w
        | None => w
        end
  end.

(** [getBoundingSphere(result)] for an array [result] of the caller's own:
    the array after the call (which is also the value returned) and the
    world after the call.  The call with a state's own array as [result] is
    [getBoundingSphere_at] below. *)
Definition getBoundingSphere
    (this : ref) (result : Vec4.t) (w : World) : Vec4.t * World :=
  match spatial w this with
  | None => (result, w)
  | Some e =>
      let w := if transformDirty_ e then updateTransform this w else w in
      match spatial w this with
      | Some e => (Vec4.setFromArray result (boundingSphere_ e), w)
      | None => (result, w)
      end
  end.

(** The [while] loop of [getTransform].  [fuel] bounds the number of times
    the loop test is evaluated; [None] means the loop is still running when
    the fuel is spent. *)
Fixpoint getTransform_while
    (fuel : nat) (w : World) (this : ref)
    (untilParent current : option ref) (result : Mat4.t) : option Mat4.t :=
  match fuel with
  | O => None
  | S fuel =>
      if bool_decide (current ≠ untilParent) then
        (* If this ancestor is a spatial entity apply its transform *)
        let result :=
          match current ≫= spatial w with
          | Some c => Mat4.multMat (transform_ c) result
          | None => result
          end in
        let current := getParent w this in
        getTransform_while fuel w this untilParent current result
      else Some result
  end.

(** [getTransform(result, opt_relativeToParent)]: the matrix returned, if the
    call returns within [fuel] loop tests, and the world after
    [updateTransform]. *)
Definition getTransform
    (fuel : nat) (this : ref) (result : Mat4.t)
    (opt_relativeToParent : option ref) (w : World)
  : option Mat4.t * World :=
  match spatial w this with
  | None => (Some result, w)
  | Some e =>
      let w := if transformDirty_ e then updateTransform this w else w in
      match spatial w this with
      | None => (Some result, w)
      | Some e =>
          (* Get current transform *)
          let result := Mat4.setFromArray result (transform_ e) in
          (* Walk up the tree until the given parent or root;
             [opt_relativeToParent || null] is [None] for an omitted
             argument *)
          let untilParent := opt_relativeToParent in
          let current := getParent w this in
          (getTransform_while fuel w this untilParent current result, w)
      end
  end.

(** ** gf.sim.SpatialEntity.State *)

Definition setPosition (this : ref) (value : Vec3.t) (w : World) : World :=
  match spatial w this with
  | None => w
  | Some e =>
      if negb (Vec3.equals (position_ (state_ e)) value) then
        let w :=
          gf_log_write "setPosition:"
            [Vec3.i0 value; Vec3.i1 value; Vec3.i2 value] w in
        let w :=
          modify this
            (fun e =>
               set_state_
                 (set_position_
                    (Vec3.setFromArray (position_ (state_ e)) value)
                    (state_ e)) e) w in
        let w := setVariableDirty this (positionOrdinal_ (state_ e)) w in
        invalidateTransform this w
      else w
  end.

Definition setRotation (this : ref) (value : Quaternion.t) (w : World) : World :=
  match spatial w this with
  | None => w
  | Some e =>
      if negb (Vec4.equals (rotation_ (state_ e)) value) then
        let w :=
          gf_log_write "setRotation:"
            [Vec4.i0 value; Vec4.i1 value; Vec4.i2 value; Vec4.i3 value] w in
        let w :=
          modify this
            (fun e =>
               set_state_
                 (set_rotation_
                    (Quaternion.setFromArray (rotation_ (state_ e)) value)
                    (state_ e)) e) w in
        let w := setVariableDirty this (rotationOrdinal_ (state_ e)) w in
        invalidateTransform this w
      else w
  end.

Definition setScale (this : ref) (value : Vec3.t) (w : World) : World :=
  match spatial w this with
  | None => w
  | Some e =>
      if negb (Vec3.equals (scale_ (state_ e)) value) then
        let w :=
          modify this
            (fun e =>
               set_state_
                 (set_scale_
                    (Vec3.setFromArray (scale_ (state_ e)) value)
                    (state_ e)) e) w in
        let w := setVariableDirty this (scaleOrdinal_ (state_ e)) w in
        invalidateTransform this w
      else w
  end.

(** The test is [!this.boundingRadius_ != value]: [!] binds tighter than
    [!=], so a boolean is compared with the number [value]. *)
Definition setBoundingRadius (this : ref) (value : number) (w : World) : World :=
  match spatial w this with
  | None => w
  | Some e =>
      if JS.bool_ne (JS.not (boundingRadius_ (state_ e))) value then
        let w :=
          modify this
            (fun e => set_state_ (set_boundingRadius_ value (state_ e)) e) w in
        let w := setVariableDirty this (boundingRadiusOrdinal_ (state_ e)) w in
        invalidateTransform this w
      else w
  end.

(** ** Construction and variable registration *)

(** A variable tag, as handed out by [gf.sim.Variable.getUniqueTag()]. *)
Definition tag : Type := N.

(** [gf.sim.SpatialEntity.State.tags_]. *)
Record Tags : Type := {
  position : tag;
  rotation : tag;
  scale : tag;
  boundingRadius : tag }.

(** Modelled from the spec: [gf.sim.VariableTable] is not among the sources.
    The specification gives its one operation used here,
    [getOrdinal(tag) -> integer]. *)
Record VariableTable : Type := { getOrdinal : tag -> ordinal }.

Section Registration.

(** The four tags drawn when the class is defined. *)
Variable tags_ : Tags.

(** The values of [gf.sim.VariableFlag.UPDATED_FREQUENTLY] and
    [gf.sim.VariableFlag.INTERPOLATED], declared outside this file. *)
Variable UPDATED_FREQUENTLY : Z.
Variable INTERPOLATED : Z.

(** Descriptors pushed by classes other than this one. *)
Variable Inherited : Type.

(** The constructor, after [goog.base] has built the base state [super]. *)
Definition State_new (super : EntityState) (variableTable : VariableTable) : State :=
  {| super_ := super;
     position_ := Vec3.createFloat32;
     positionOrdinal_ := getOrdinal variableTable (position tags_);
     rotation_ := Quaternion.createFloat32;
     rotationOrdinal_ := getOrdinal variableTable (rotation tags_);
     scale_ := Vec3.createFloat32;
     scaleOrdinal_ := getOrdinal variableTable (scale tags_);
     boundingRadius_ := 0%js;
     boundingRadiusOrdinal_ := getOrdinal variableTable (boundingRadius tags_) |}.

(** A variable descriptor: the constructor called and its arguments, in the
    order they are passed.  [gf.sim.Variable.Quaternion] is the only one
    called with a fifth argument. *)
Inductive Descriptor : Type :=
| Variable_Vec3
    (t : tag) (flags : Z)
    (getter : State -> Vec3.t)
    (setter : ref -> Vec3.t -> World -> World)
| Variable_Quaternion
    (t : tag) (flags : Z)
    (getter : State -> Quaternion.t)
    (setter : ref -> Quaternion.t -> World -> World)
    (normalized : bool)
| Variable_Float
    (t : tag) (flags : Z)
    (getter : State -> number)
    (setter : ref -> number -> World -> World)
| Variable_inherited (v : Inherited).

(** [gf.sim.EntityState.declareVariables], declared outside this file: the
    list after the base class has pushed its descriptors. *)
Variable EntityState_declareVariables : list Descriptor -> list Descriptor.

(** [variableList.push(x)]. *)
Definition push (variableList : list Descriptor) (x : Descriptor) : list Descriptor :=
  variableList ++ [x].

(** The list after [declareVariables(variableList)]. *)
Definition declareVariables (variableList : list Descriptor) : list Descriptor :=
  let variableList := EntityState_declareVariables variableList in
  let variableList :=
    push variableList
      (Variable_Vec3 (position tags_)
         (Z.lor UPDATED_FREQUENTLY INTERPOLATED)
         getPosition setPosition) in
  let variableList :=
    push variableList
      (Variable_Quaternion (rotation tags_)
         (Z.lor UPDATED_FREQUENTLY INTERPOLATED)
         getRotation setRotation true) in
  let variableList :=
    push variableList
      (Variable_Vec3 (scale tags_)
         (Z.lor UPDATED_FREQUENTLY INTERPOLATED)
         getScale setScale) in
  push variableList
    (Variable_Float (boundingRadius tags_)
       (Z.lor UPDATED_FREQUENTLY INTERPOLATED)
       getBoundingRadius setBoundingRadius).

(** The fifth constructor argument of a descriptor, when it has one. *)
Definition fifth_argument (d : Descriptor) : option bool :=
  match d with
  | Variable_Quaternion _ _ _ _ normalized => Some normalized
  | _ => None
  end.

(** The tag a descriptor of this class was built with. *)
Definition descriptor_tag (d : Descriptor) : option tag :=
  match d with
  | Variable_Vec3 t _ _ _ => Some t
  | Variable_Quaternion t _ _ _ _ => Some t
  | Variable_Float t _ _ _ => Some t
  | Variable_inherited _ => None
  end.

End Registration.

Arguments Variable_Vec3 {Inherited}.
Arguments Variable_Quaternion {Inherited}.
Arguments Variable_Float {Inherited}.
Arguments Variable_inherited {Inherited}.
Arguments fifth_argument {Inherited}.
Arguments descriptor_tag {Inherited}.

(** ** The operations of the public interface *)

Inductive Op : Type :=
| PostNetworkUpdate (this : ref)
| InvalidateTransform (this : ref)
| UpdateTransform (this : ref)
| GetBoundingSphere (this : ref) (result : Vec4.t)
| GetTransform
    (fuel : nat) (this : ref) (result : Mat4.t)
    (opt_relativeToParent : option ref)
| GetPosition (this : ref)
| GetRotation (this : ref)
| GetScale (this : ref)
| GetBoundingRadius (this : ref)
| SetPosition (this : ref) (value : Vec3.t)
| SetRotation (this : ref) (value : Quaternion.t)
| SetScale (this : ref) (value : Vec3.t)
| SetBoundingRadius (this : ref) (value : number).

(** The world after an operation. *)
Definition run (op : Op) (w : World) : World :=
  match op with
  | PostNetworkUpdate this => postNetworkUpdate this w
  | InvalidateTransform this => invalidateTransform this w
  | UpdateTransform this => updateTransform this w
  | GetBoundingSphere this result => snd (getBoundingSphere this result w)
  | GetTransform fuel this result opt => snd (getTransform fuel this result opt w)
  | GetPosition _ | GetRotation _ | GetScale _ | GetBoundingRadius _ => w
  | SetPosition this value => setPosition this value w
  | SetRotation this value => setRotation this value w
  | SetScale this value => setScale this value w
  | SetBoundingRadius this value => setBoundingRadius this value w
  end.

(** ** What the cache is meant to hold *)

(** The bounding sphere determined by a state: centred at the position, with
    the bounding radius scaled by the largest scale axis, as a float32. *)
Definition sphere_of (s : State) : Vec4.t :=
  Vec4.make
    (Vec3.i0 (position_ s)) (Vec3.i1 (position_ s)) (Vec3.i2 (position_ s))
    (JS.fround
       (JS.times (boundingRadius_ s)
          (JS.Math_max (Vec3.i0 (scale_ s))
             (JS.Math_max (Vec3.i1 (scale_ s)) (Vec3.i2 (scale_ s)))))).

(** The matrix determined by a state:
    Translate(position) . Rotation(rotation) . Scale(scale). *)
Definition matrix_of (s : State) : Mat4.t :=
  Mat4.multMat
    (Mat4.makeTranslate
       (Vec3.i0 (position_ s)) (Vec3.i1 (position_ s)) (Vec3.i2 (position_ s)))
    (Mat4.multMat
       (Quaternion.toRotationMatrix4 (rotation_ s))
       (Mat4.makeScale
          (Vec3.i0 (scale_ s)) (Vec3.i1 (scale_ s)) (Vec3.i2 (scale_ s)))).

(** The state values the transform depends on. *)
Definition transform_values (s : State) : Vec3.t * Quaternion.t * Vec3.t * number :=
  (position_ s, rotation_ s, scale_ s, boundingRadius_ s).

(** A clean entity caches exactly what its state determines. *)
Definition cache_consistent (e : SpatialEntity) : Prop :=
  transformDirty_ e = false ->
  boundingSphere_ e = sphere_of (state_ e) /\
  transform_ e = matrix_of (state_ e).

Definition world_consistent (w : World) : Prop :=
  forall (r : ref) (e : SpatialEntity),
    spatial w r = Some e -> cache_consistent e.

(** The world after a sequence of operations. *)
Definition run_all (ops : list Op) (w : World) : World :=
  fold_left (fun w op => run op w) ops w.

(** The entity left by [updateTransform] when it recomputes. *)
Definition recomputed (e : SpatialEntity) : SpatialEntity :=
  {| entity_ := entity_ e;
     state_ := state_ e;
     transformDirty_ := false;
     boundingSphere_ := sphere_of (state_ e);
     transform_ := matrix_of (state_ e) |}.

(** The entity left by a setter that took its update branch: [s] is the
    state with the new value written, [o] the ordinal of the field. *)
Definition written (o : ordinal) (s : State) (e : SpatialEntity) : SpatialEntity :=
  {| entity_ := entity_ e;
     state_ := set_super_ (EntityState_setVariableDirty o (super_ s)) s;
     transformDirty_ := true;
     boundingSphere_ := boundingSphere_ e;
     transform_ := transform_ e |}.

(** The notification [updateTransform] sends after recomputing, if any. *)
Definition notification (w : World) (this : ref) : list Event :=
  match getParent w this with
  | Some p =>
      if has_childTransformed w (Some p) then [ChildTransformed p this] else []
  | None => []
  end.

(** The number a stored radius is compared with by [setBoundingRadius]:
    [ToNumber(!stored)]. *)
Definition radius_comparand (stored : number) : number :=
  JS.ToNumber (JS.not stored).

(** The greatest of three rationals. *)
Definition Qc_max3 (a b c : Qc) : Qc :=
  if decide (a < b)%Qc
  then (if decide (b < c)%Qc then c else b)
  else (if decide (a < c)%Qc then c else a).

(** How one entity may change in one operation: a consistent cache stays
    consistent, and a change of the transform's inputs leaves it dirty. *)
Definition respects_cache (e e' : SpatialEntity) : Prop :=
  (cache_consistent e -> cache_consistent e') /\
  (transform_values (state_ e') <> transform_values (state_ e) ->
   transformDirty_ e' = true).

(** An operation leaves the heap alone or rewrites one spatial entity. *)
Definition touches_one (w w' : World) : Prop :=
  heap w' = heap w \/
  exists (this : ref) (e e' : SpatialEntity),
    spatial w this = Some e /\
    heap w' = <[ this := Spatial e' ]> (heap w) /\
    respects_cache e e'.

(** ** A summary of the operations *)

(** The entity an operation is invoked on. *)
Definition target (op : Op) : ref :=
  match op with
  | PostNetworkUpdate this | InvalidateTransform this | UpdateTransform this
  | GetBoundingSphere this _ | GetTransform _ this _ _
  | GetPosition this | GetRotation this | GetScale this
  | GetBoundingRadius this
  | SetPosition this _ | SetRotation this _ | SetScale this _
  | SetBoundingRadius this _ => this
  end.

(** The operations that run [updateTransform]. *)
Definition is_read (op : Op) : bool :=
  match op with
  | UpdateTransform _ | GetBoundingSphere _ _ | GetTransform _ _ _ _ => true
  | _ => false
  end.

Definition is_setter (op : Op) : bool :=
  match op with
  | SetPosition _ _ | SetRotation _ _ | SetScale _ _
  | SetBoundingRadius _ _ => true
  | _ => false
  end.

Definition is_invalidation (op : Op) : bool :=
  match op with
  | PostNetworkUpdate _ | InvalidateTransform _ => true
  | _ => false
  end.

(** The four ordinals a state holds. *)
Definition ordinals (s : State) : ordinal * ordinal * ordinal * ordinal :=
  (positionOrdinal_ s, rotationOrdinal_ s, scaleOrdinal_ s,
   boundingRadiusOrdinal_ s).

(** The ordinal a setter may mark dirty on state [s]. *)
Definition marked (op : Op) (s : State) : gset ordinal :=
  match op with
  | SetPosition _ _ => {[ positionOrdinal_ s ]}
  | SetRotation _ _ => {[ rotationOrdinal_ s ]}
  | SetScale _ _ => {[ scaleOrdinal_ s ]}
  | SetBoundingRadius _ _ => {[ boundingRadiusOrdinal_ s ]}
  | _ => ∅
  end.

(** What an operation makes of its target [e] and which calls it sends out,
    in one step; [run_outcome] shows that [run] does exactly this. *)
Definition outcome (op : Op) (w : World) (e : SpatialEntity)
  : SpatialEntity * list Event :=
  match op with
  | PostNetworkUpdate _ | InvalidateTransform _ =>
      (set_transformDirty_ true e, [])
  | UpdateTransform this | GetBoundingSphere this _ | GetTransform _ this _ _ =>
      if transformDirty_ e then (recomputed e, notification w this)
      else (e, [])
  | GetPosition _ | GetRotation _ | GetScale _ | GetBoundingRadius _ =>
      (e, [])
  | SetPosition _ value =>
      if Vec3.equals (position_ (state_ e)) value then (e, [])
      else
        (written (positionOrdinal_ (state_ e))
           (set_position_ value (state_ e)) e,
         [LogWrite "setPosition:"
            [Vec3.i0 value; Vec3.i1 value; Vec3.i2 value]])
  | SetRotation _ value =>
      if Vec4.equals (rotation_ (state_ e)) value then (e, [])
      else
        (written (rotationOrdinal_ (state_ e))
           (set_rotation_ value (state_ e)) e,
         [LogWrite "setRotation:"
            [Vec4.i0 value; Vec4.i1 value; Vec4.i2 value; Vec4.i3 value]])
  | SetScale _ value =>
      if Vec3.equals (scale_ (state_ e)) value then (e, [])
      else
        (written (scaleOrdinal_ (state_ e)) (set_scale_ value (state_ e)) e,
         [])
  | SetBoundingRadius _ value =>
      if JS.ne (radius_comparand (boundingRadius_ (state_ e))) value
      then
        (written (boundingRadiusOrdinal_ (state_ e))
           (set_boundingRadius_ value (state_ e)) e,
         [])
      else (e, [])
  end.

(** A component of the vector is NaN. *)
Definition has_NaN3 (v : Vec3.t) : Prop :=
  Vec3.i0 v = NaN \/ Vec3.i1 v = NaN \/ Vec3.i2 v = NaN.

Definition has_NaN4 (v : Vec4.t) : Prop :=
  Vec4.i0 v = NaN \/ Vec4.i1 v = NaN \/ Vec4.i2 v = NaN \/ Vec4.i3 v = NaN.

(** ** Rotation by a quaternion *)

(** A rational quaternion [x i + y j + z k + w]. *)
Record quat : Type := { qx : Qc; qy : Qc; qz : Qc; qw : Qc }.

(** The Hamilton product. *)
Definition hamilton (p q : quat) : quat :=
  {| qx := qw p * qx q + qx p * qw q + qy p * qz q - qz p * qy q;
     qy := qw p * qy q - qx p * qz q + qy p * qw q + qz p * qx q;
     qz := qw p * qz q + qx p * qy q - qy p * qx q + qz p * qw q;
     qw := qw p * qw q - qx p * qx q - qy p * qy q - qz p * qz q |}%Qc.

Definition conjugate (q : quat) : quat :=
  {| qx := - qx q; qy := - qy q; qz := - qz q; qw := qw q |}%Qc.

(** The rotation of the vector [(x, y, z)] by the unit quaternion [q]: the
    vector part of [q v q*], with [v] the quaternion [x i + y j + z k]. *)
Definition rotate (q : quat) (x y z : Qc) : Qc * Qc * Qc :=
  let r :=
    hamilton (hamilton q {| qx := x; qy := y; qz := z; qw := 0 |})
      (conjugate q) in
  (qx r, qy r, qz r).

Definition unit_quat (q : quat) : Prop :=
  (qx q * qx q + qy q * qy q + qz q * qz q + qw q * qw q = 1)%Qc.

(** ** Result arrays that belong to a state *)

(** Where the four-element array passed to [getBoundingSphere] as [result]
    lives.  The caller may pass an array of its own; it may also pass the
    array a state handed out, since [getRotation()] returns the state's own
    [rotation_], not a copy.  That is the only four-element array this file
    returns to its callers ([boundingSphere_] has no accessor, and the
    position and scale arrays have three elements). *)
Inductive Dest : Type :=
| Own (result : Vec4.t)
| RotationOf (owner : ref).

(** [getBoundingSphere(result)], with [result] given by where it lives: the
    array returned (the one passed) and the world after the call.
    [goog.vec.Vec4.setFromArray(result, this.boundingSphere_)] writes into
    the array passed, whoever holds it. *)
Definition getBoundingSphere_at
    (this : ref) (result : Dest) (w : World) : Dest * World :=
  match spatial w this with
  | None => (result, w)
  | Some e =>
      let w := if transformDirty_ e then updateTransform this w else w in
      match spatial w this with
      | Some e =>
          match result with
          | Own r => (Own (Vec4.setFromArray r (boundingSphere_ e)), w)
          | RotationOf owner =>
              (RotationOf owner,
               modify owner
                 (fun o =>
                    set_state_
                      (set_rotation_
                         (Vec4.setFromArray (rotation_ (state_ o))
                            (boundingSphere_ e))
                         (state_ o)) o) w)
          end
      | None => (result, w)
      end
  end.

(** A call of the public interface: an operation whose arrays are the
    caller's own, or [this.getBoundingSphere(owner.getState().getRotation())]. *)
Inductive Call : Type :=
| Do (op : Op)
| GetBoundingSphereInto (this owner : ref).

(** The world after a call. *)
Definition call (c : Call) (w : World) : World :=
  match c with
  | Do op => run op w
  | GetBoundingSphereInto this owner =>
      snd (getBoundingSphere_at this (RotationOf owner) w)
  end.

(** The call passes no array that belongs to a state as [result]. *)
Definition own_result (c : Call) : Prop :=
  match c with
  | Do _ => True
  | GetBoundingSphereInto _ _ => False
  end.

(** The world after a sequence of calls. *)
Definition call_all (cs : list Call) (w : World) : World :=
  fold_left (fun w c => call c w) cs w.

(** The sphere [getBoundingSphere] reads on entity [t]: recomputed when [t]
    is dirty, the cached one otherwise. *)
Definition cached_sphere (t : SpatialEntity) : Vec4.t :=
  if transformDirty_ t then sphere_of (state_ t) else boundingSphere_ t.

(** ** Sample worlds *)

Module Sample.

Definition tags : Tags :=
  {| position := 4%N; rotation := 5%N; scale := 6%N; boundingRadius := 7%N |}.

(** A table that hands out ordinals 0 to 3 in declaration order. *)
Definition table : VariableTable :=
  {| getOrdinal := fun t => (t - 4)%N |}.

Definition fresh_state : State :=
  State_new tags {| dirtyBits := ∅ |} table.

Definition A : ref := 1%positive.
Definition B : ref := 2%positive.

(** A freshly constructed entity without a parent. *)
Definition root_entity : SpatialEntity :=
  SpatialEntity_new {| parent_ := None; childTransformed := false |} fresh_state.

(** A freshly constructed entity whose parent is [A]. *)
Definition child_entity : SpatialEntity :=
  SpatialEntity_new {| parent_ := Some A; childTransformed := false |} fresh_state.

(** One entity, just constructed. *)
Definition new_world : World :=
  {| heap := {[ A := Spatial root_entity ]}; trace := [] |}.

(** One entity whose transform has been computed once. *)
Definition clean_world : World := updateTransform A new_world.

(** One clean entity whose bounding radius is 5. *)
Definition radius5_world : World :=
  updateTransform A (setBoundingRadius A (JS.of_Z 5) new_world).

(** One clean entity whose bounding radius is NaN. *)
Definition nan_world : World :=
  updateTransform A (setBoundingRadius A NaN new_world).

(** Parent [A] and child [B], both placed and scaled, both clean. *)
Definition family_world : World :=
  let w :=
    {| heap := <[ B := Spatial child_entity ]> {[ A := Spatial root_entity ]};
       trace := [] |} in
  let w := setScale A (Vec3.make 1 1 1)%js w in
  let w := setRotation A (Vec4.make 0 0 0 1)%js w in
  let w := setPosition A (Vec3.make (JS.of_Z 10) 0 0)%js w in
  let w := setScale B (Vec3.make 2 1 1)%js w in
  let w := setRotation B (Vec4.make 0 0 0 1)%js w in
  let w := setPosition B (Vec3.make (JS.of_Z 5) 0 0)%js w in
  updateTransform B (updateTransform A w).

(** An entity with scale (2,1,1), identity rotation and position (5,0,0). *)
Definition scaled_world : World :=
  let w := setScale A (Vec3.make 2 1 1)%js new_world in
  let w := setRotation A (Vec4.make 0 0 0 1)%js w in
  setPosition A (Vec3.make (JS.of_Z 5) 0 0)%js w.

(** An entity with scale (2,1,1), turned by a third of a turn about the
    diagonal (1,1,1) (the unit quaternion (1/2, 1/2, 1/2, 1/2), which takes
    the x axis to the y axis, y to z and z to x), at position (5,0,0).
    Every value is a single-precision number. *)
Definition turned_world : World :=
  let half := Num (Q2Qc (1 # 2)) in
  let w := setScale A (Vec3.make 2 1 1)%js new_world in
  let w := setRotation A (Vec4.make half half half half) w in
  setPosition A (Vec3.make (JS.of_Z 5) 0 0)%js w.

(** The same entity with bounding radius 3. *)
Definition sphere_world : World :=
  setBoundingRadius A (JS.of_Z 3) scaled_world.

(** The same entity once its transform has been computed. *)
Definition placed_world : World := updateTransform A sphere_world.

(** An entity with scale (1,1,1) and bounding radius 16777217, which is
    2^24 + 1: a double, but not a float32. *)
Definition big_radius_world : World :=
  setBoundingRadius A (JS.of_Z 16777217)
    (setScale A (Vec3.make 1 1 1)%js new_world).

End Sample.

(** Decidable equality of the array types, to compare computed values. *)

Global Instance Vec3_eq_dec : EqDecision Vec3.t.
Proof. solve_decision. Defined.

Global Instance Vec4_eq_dec : EqDecision Vec4.t.
Proof. solve_decision. Defined.

Global Instance Mat4_eq_dec : EqDecision Mat4.t.
Proof. solve_decision. Defined.

(** * Properties *)

(** ** Heap bookkeeping *)

Lemma spatial_store (r r' : ref) (e : SpatialEntity) (w : World) :
  spatial (store r e w) r' = if decide (r = r') then Some e else spatial w r'.
Proof.
  unfold spatial, store; simpl.
  rewrite lookup_insert. by case_decide.
Qed.

Lemma spatial_store_eq (r : ref) (e : SpatialEntity) (w : World) :
  spatial (store r e w) r = Some e.
Proof. rewrite spatial_store. by case_decide. Qed.

Lemma spatial_emit (ev : Event) (w : World) (r : ref) :
  spatial (emit ev w) r = spatial w r.
Proof. reflexivity. Qed.

Lemma modify_eq (this : ref) f (w : World) (e : SpatialEntity) :
  spatial w this = Some e -> modify this f w = store this (f e) w.
Proof. intros H. unfold modify. by rewrite H. Qed.

Lemma store_store (r : ref) (e e0 : SpatialEntity) (w : World) :
  store r e (store r e0 w) = store r e w.
Proof. unfold store; simpl. by rewrite insert_insert_eq. Qed.

Lemma modify_store (r : ref) f (e : SpatialEntity) (w : World) :
  modify r f (store r e w) = store r (f e) w.
Proof.
  rewrite (modify_eq r f _ e) by apply spatial_store_eq.
  apply store_store.
Qed.

Lemma modify_emit (r : ref) f (ev : Event) (w : World) :
  modify r f (emit ev w) = emit ev (modify r f w).
Proof.
  unfold modify. rewrite spatial_emit. by destruct (spatial w r).
Qed.

(** ** What each operation does to the world *)

Lemma invalidateTransform_eq (this : ref) (w : World) (e : SpatialEntity) :
  spatial w this = Some e ->
  invalidateTransform this w = store this (set_transformDirty_ true e) w.
Proof. apply modify_eq. Qed.

Lemma postNetworkUpdate_eq (this : ref) (w : World) (e : SpatialEntity) :
  spatial w this = Some e ->
  postNetworkUpdate this w = store this (set_transformDirty_ true e) w.
Proof. apply modify_eq. Qed.

Lemma updateTransform_clean (this : ref) (w : World) (e : SpatialEntity) :
  spatial w this = Some e -> transformDirty_ e = false ->
  updateTransform this w = w.
Proof. intros He Hd. unfold updateTransform. by rewrite He, Hd. Qed.

Lemma updateTransform_dirty (this : ref) (w : World) (e : SpatialEntity) :
  spatial w this = Some e -> transformDirty_ e = true ->
  updateTransform this w =
  {| heap := <[ this := Spatial (recomputed e) ]> (heap w);
     trace := trace w ++ notification (store this (recomputed e) w) this |}.
Proof.
  intros He Hd. unfold updateTransform. rewrite He, Hd. cbn [negb].
  rewrite (modify_eq _ _ _ e He), !modify_store.
  change (store this _ w) with (store this (recomputed e) w).
  unfold notification.
  destruct (getParent (store this (recomputed e) w) this) as [p|];
    [destruct (has_childTransformed _ _)|];
    unfold emit, store; simpl; by rewrite ?app_nil_r.
Qed.

Lemma updateTransform_spatial (this : ref) (w : World) (e : SpatialEntity) :
  spatial w this = Some e ->
  spatial (updateTransform this w) this =
  Some (if transformDirty_ e then recomputed e else e).
Proof.
  intros He. destruct (transformDirty_ e) eqn:Hd.
  - rewrite (updateTransform_dirty _ _ _ He Hd).
    apply (spatial_store_eq this (recomputed e) w).
  - by rewrite (updateTransform_clean _ _ _ He Hd).
Qed.

Lemma setPosition_eq (this : ref) (value : Vec3.t) (w : World) (e : SpatialEntity) :
  spatial w this = Some e ->
  setPosition this value w =
  if Vec3.equals (position_ (state_ e)) value then w
  else
    store this
      (written (positionOrdinal_ (state_ e))
         (set_position_ value (state_ e)) e)
      (emit (LogWrite "setPosition:"
               [Vec3.i0 value; Vec3.i1 value; Vec3.i2 value]) w).
Proof.
  intros He. unfold setPosition. rewrite He.
  destruct (Vec3.equals _ _); [done|]. cbn [negb].
  unfold gf_log_write, setVariableDirty, invalidateTransform.
  rewrite !modify_emit, (modify_eq _ _ _ e He), !modify_store.
  by destruct value.
Qed.

Lemma setRotation_eq (this : ref) (value : Quaternion.t) (w : World) (e : SpatialEntity) :
  spatial w this = Some e ->
  setRotation this value w =
  if Vec4.equals (rotation_ (state_ e)) value then w
  else
    store this
      (written (rotationOrdinal_ (state_ e))
         (set_rotation_ value (state_ e)) e)
      (emit (LogWrite "setRotation:"
               [Vec4.i0 value; Vec4.i1 value; Vec4.i2 value; Vec4.i3 value])
         w).
Proof.
  intros He. unfold setRotation. rewrite He.
  destruct (Vec4.equals _ _); [done|]. cbn [negb].
  unfold gf_log_write, setVariableDirty, invalidateTransform.
  rewrite !modify_emit, (modify_eq _ _ _ e He), !modify_store.
  by destruct value.
Qed.

Lemma setScale_eq (this : ref) (value : Vec3.t) (w : World) (e : SpatialEntity) :
  spatial w this = Some e ->
  setScale this value w =
  if Vec3.equals (scale_ (state_ e)) value then w
  else
    store this
      (written (scaleOrdinal_ (state_ e)) (set_scale_ value (state_ e)) e) w.
Proof.
  intros He. unfold setScale. rewrite He.
  destruct (Vec3.equals _ _); [done|]. cbn [negb].
  unfold setVariableDirty, invalidateTransform.
  rewrite (modify_eq _ _ _ e He), !modify_store.
  by destruct value.
Qed.

Lemma setBoundingRadius_eq (this : ref) (value : number) (w : World) (e : SpatialEntity) :
  spatial w this = Some e ->
  setBoundingRadius this value w =
  if JS.ne (radius_comparand (boundingRadius_ (state_ e))) value
  then
    store this
      (written (boundingRadiusOrdinal_ (state_ e))
         (set_boundingRadius_ value (state_ e)) e) w
  else w.
Proof.
  intros He. unfold setBoundingRadius. rewrite He.
  unfold JS.bool_ne, radius_comparand.
  destruct (JS.ne _ _); [|done].
  unfold setVariableDirty, invalidateTransform.
  by rewrite (modify_eq _ _ _ e He), !modify_store.
Qed.

(** ** JavaScript numbers *)

Lemma Qc_one_ne_zero : (Q2Qc (inject_Z 1) ≠ Q2Qc (inject_Z 0))%Qc.
Proof. intros H. by apply (f_equal this) in H. Qed.

(** [ToNumber(!r)] is 1 for a falsy [r] (zero or NaN) and 0 otherwise. *)
Lemma radius_comparand_cases (r : number) :
  radius_comparand r =
  match r with
  | NaN => 1%js
  | JS.Inf _ => 0%js
  | Num q => if bool_decide (q = 0%Qc) then 1%js else 0%js
  end.
Proof.
  unfold radius_comparand, JS.not, JS.ToBoolean, JS.ToNumber.
  destruct r as [|s|q]; [done|done|]. by case_bool_decide.
Qed.

(** No number is [==] to the one it is compared with: whatever is stored,
    [!stored != stored] holds. *)
Lemma radius_comparand_self (r : number) :
  JS.ne (radius_comparand r) r = true.
Proof.
  rewrite radius_comparand_cases. destruct r as [|s|q]; [done|done|].
  unfold JS.ne, JS.eq, JS.of_Z. case_bool_decide as Hq; simpl.
  - subst q. rewrite bool_decide_eq_false_2; [done|apply Qc_one_ne_zero].
  - rewrite bool_decide_eq_false_2; [done|]. intros H. by apply Hq.
Qed.

(** [Math.max] nested twice picks the greatest of three rationals. *)
Lemma Math_max3 (a b c : Qc) :
  JS.Math_max (Num a) (JS.Math_max (Num b) (Num c)) = Num (Qc_max3 a b c).
Proof.
  unfold JS.Math_max, Qc_max3.
  destruct (decide (b < c)%Qc) as [Hbc|Hbc], (decide (a < b)%Qc) as [Hab|Hab];
    repeat case_decide; try reflexivity; exfalso.
  - by eauto using Qclt_trans.
  - apply Qcnot_lt_le in Hbc, Hab.
    match goal with
    | H : (a < c)%Qc |- _ => apply (Qclt_not_le _ _ H)
    end.
    by apply Qcle_trans with b.
Qed.

Lemma Qc_max3_upper (a b c : Qc) :
  (a <= Qc_max3 a b c /\ b <= Qc_max3 a b c /\ c <= Qc_max3 a b c)%Qc.
Proof.
  unfold Qc_max3.
  repeat case_decide;
    repeat match goal with
           | H : ¬ (_ < _)%Qc |- _ => apply Qcnot_lt_le in H
           | H : (_ < _)%Qc |- _ => apply Qclt_le_weak in H
           end;
    repeat split; eauto using Qcle_refl, Qcle_trans.
Qed.

(** ** Setters called with the stored value *)

Lemma setPosition_same_value (this : ref) (value : Vec3.t) (w : World) (e : SpatialEntity) :
  spatial w this = Some e ->
  Vec3.equals (position_ (state_ e)) value = true ->
  setPosition this value w = w.
Proof. intros He Heq. by rewrite (setPosition_eq _ _ _ _ He), Heq. Qed.

Lemma setRotation_same_value (this : ref) (value : Quaternion.t) (w : World) (e : SpatialEntity) :
  spatial w this = Some e ->
  Vec4.equals (rotation_ (state_ e)) value = true ->
  setRotation this value w = w.
Proof. intros He Heq. by rewrite (setRotation_eq _ _ _ _ He), Heq. Qed.

Lemma setScale_same_value (this : ref) (value : Vec3.t) (w : World) (e : SpatialEntity) :
  spatial w this = Some e ->
  Vec3.equals (scale_ (state_ e)) value = true ->
  setScale this value w = w.
Proof. intros He Heq. by rewrite (setScale_eq _ _ _ _ He), Heq. Qed.

(** Whatever radius is stored, passing it again takes the update branch. *)
Lemma setBoundingRadius_stored_value (this : ref) (w : World) (e : SpatialEntity) :
  spatial w this = Some e ->
  setBoundingRadius this (boundingRadius_ (state_ e)) w =
  store this (written (boundingRadiusOrdinal_ (state_ e)) (state_ e) e) w.
Proof.
  intros He.
  rewrite (setBoundingRadius_eq _ _ _ _ He), radius_comparand_self.
  by destruct e as [b [] d s t].
Qed.

Lemma clean_world_spatial :
  spatial Sample.clean_world Sample.A = Some (recomputed Sample.root_entity).
Proof.
  unfold Sample.clean_world.
  by rewrite (updateTransform_spatial _ _ Sample.root_entity).
Qed.

(** C1, at the input where the code departs from it.  On a clean entity
    whose bounding radius is 0 and whose dirty bits are all clear,
    [setBoundingRadius] called with the stored radius marks the radius
    ordinal dirty and invalidates the transform cache, where the claim asks
    for no effect. *)
Theorem setBoundingRadius_stored_value_marks_dirty :
  exists e e' : SpatialEntity,
    spatial Sample.clean_world Sample.A = Some e /\
    spatial
      (setBoundingRadius Sample.A (boundingRadius_ (state_ e))
         Sample.clean_world) Sample.A = Some e' /\
    boundingRadius_ (state_ e) = 0%js /\
    transformDirty_ e = false /\
    (boundingRadiusOrdinal_ (state_ e) ∉ dirtyBits (super_ (state_ e))) /\
    transformDirty_ e' = true /\
    boundingRadiusOrdinal_ (state_ e) ∈ dirtyBits (super_ (state_ e')).
Proof.
  eexists _, _. split; [apply clean_world_spatial|].
  rewrite (setBoundingRadius_stored_value _ _ _ clean_world_spatial).
  split; [apply spatial_store_eq|].
  repeat split; simpl; set_solver.
Qed.

(** ** Setters called with a different value *)

Lemma setPosition_different_value (this : ref) (value : Vec3.t) (w : World) (e : SpatialEntity) :
  spatial w this = Some e ->
  Vec3.equals (position_ (state_ e)) value = false ->
  exists e' : SpatialEntity,
    spatial (setPosition this value w) this = Some e' /\
    position_ (state_ e') = value /\
    (dirtyBits (super_ (state_ e')) =
       {[ positionOrdinal_ (state_ e) ]} ∪ dirtyBits (super_ (state_ e))) /\
    transformDirty_ e' = true.
Proof.
  intros He Hne. rewrite (setPosition_eq _ _ _ _ He), Hne.
  eexists. split; [apply spatial_store_eq|done].
Qed.

Lemma setRotation_different_value (this : ref) (value : Quaternion.t) (w : World) (e : SpatialEntity) :
  spatial w this = Some e ->
  Vec4.equals (rotation_ (state_ e)) value = false ->
  exists e' : SpatialEntity,
    spatial (setRotation this value w) this = Some e' /\
    rotation_ (state_ e') = value /\
    (dirtyBits (super_ (state_ e')) =
       {[ rotationOrdinal_ (state_ e) ]} ∪ dirtyBits (super_ (state_ e))) /\
    transformDirty_ e' = true.
Proof.
  intros He Hne. rewrite (setRotation_eq _ _ _ _ He), Hne.
  eexists. split; [apply spatial_store_eq|done].
Qed.

Lemma setScale_different_value (this : ref) (value : Vec3.t) (w : World) (e : SpatialEntity) :
  spatial w this = Some e ->
  Vec3.equals (scale_ (state_ e)) value = false ->
  exists e' : SpatialEntity,
    spatial (setScale this value w) this = Some e' /\
    scale_ (state_ e') = value /\
    (dirtyBits (super_ (state_ e')) =
       {[ scaleOrdinal_ (state_ e) ]} ∪ dirtyBits (super_ (state_ e))) /\
    transformDirty_ e' = true.
Proof.
  intros He Hne. rewrite (setScale_eq _ _ _ _ He), Hne.
  eexists. split; [apply spatial_store_eq|done].
Qed.

Lemma radius5_world_spatial :
  exists e : SpatialEntity,
    spatial Sample.radius5_world Sample.A = Some e /\
    boundingRadius_ (state_ e) = JS.of_Z 5 /\
    transformDirty_ e = false.
Proof.
  unfold Sample.radius5_world.
  assert (Hnew : spatial Sample.new_world Sample.A = Some Sample.root_entity)
    by reflexivity.
  rewrite (setBoundingRadius_eq _ _ _ _ Hnew).
  change (JS.ne _ _) with true. cbv iota.
  erewrite updateTransform_spatial by apply spatial_store_eq.
  by eexists.
Qed.

(** C2, at the inputs where the code departs from it.  With radius 0 stored,
    [setBoundingRadius(1)] passes a different value and changes nothing; with
    radius 5 stored, so does [setBoundingRadius(0)].  The claim asks for the
    value to be copied, the ordinal marked and the cache invalidated. *)
Theorem setBoundingRadius_different_value_ignored :
  (exists e : SpatialEntity,
     spatial Sample.clean_world Sample.A = Some e /\
     boundingRadius_ (state_ e) = 0%js /\
     JS.ne (boundingRadius_ (state_ e)) 1%js = true /\
     setBoundingRadius Sample.A 1%js Sample.clean_world = Sample.clean_world) /\
  (exists e : SpatialEntity,
     spatial Sample.radius5_world Sample.A = Some e /\
     boundingRadius_ (state_ e) = JS.of_Z 5 /\
     JS.ne (boundingRadius_ (state_ e)) 0%js = true /\
     setBoundingRadius Sample.A 0%js Sample.radius5_world =
       Sample.radius5_world).
Proof.
  split.
  - eexists. split; [apply clean_world_spatial|].
    split; [done|]. split; [done|].
    by rewrite (setBoundingRadius_eq _ _ _ _ clean_world_spatial).
  - destruct radius5_world_spatial as (e & He & Hr & _).
    exists e. split; [done|]. split; [done|].
    rewrite Hr. split; [done|].
    by rewrite (setBoundingRadius_eq _ _ _ _ He), Hr.
Qed.

(** ** The branch taken by setBoundingRadius *)

Lemma nan_world_spatial :
  exists e : SpatialEntity,
    spatial Sample.nan_world Sample.A = Some e /\
    boundingRadius_ (state_ e) = NaN /\
    transformDirty_ e = false.
Proof.
  unfold Sample.nan_world.
  assert (Hnew : spatial Sample.new_world Sample.A = Some Sample.root_entity)
    by reflexivity.
  rewrite (setBoundingRadius_eq _ _ _ _ Hnew).
  change (JS.ne _ _) with true. cbv iota.
  erewrite updateTransform_spatial by apply spatial_store_eq.
  by eexists.
Qed.

(** C10 as stated fails when the stored radius is NaN.  NaN is not zero
    ([NaN != 0] holds), so the claim has [setBoundingRadius(0)] leave the
    radius alone and mark nothing; but [!NaN] is [true], the test compares 1
    with 0, and the call overwrites the radius and invalidates the cache. *)
Lemma setBoundingRadius_zero_over_nan :
  exists e e' : SpatialEntity,
    spatial Sample.nan_world Sample.A = Some e /\
    JS.ne (boundingRadius_ (state_ e)) 0%js = true /\
    transformDirty_ e = false /\
    spatial (setBoundingRadius Sample.A 0%js Sample.nan_world) Sample.A
      = Some e' /\
    boundingRadius_ (state_ e') = 0%js /\
    boundingRadius_ (state_ e') <> boundingRadius_ (state_ e) /\
    transformDirty_ e' = true.
Proof.
  destruct nan_world_spatial as (e & He & Hr & Hd).
  assert (Hs : setBoundingRadius Sample.A 0%js Sample.nan_world =
               store Sample.A
                 (written (boundingRadiusOrdinal_ (state_ e))
                    (set_boundingRadius_ 0%js (state_ e)) e) Sample.nan_world).
  { rewrite (setBoundingRadius_eq _ _ _ _ He). by rewrite Hr. }
  rewrite Hs.
  eexists e, _. split; [done|].
  split; [by rewrite Hr|]. split; [done|].
  split; [apply spatial_store_eq|]. simpl. by rewrite Hr.
Qed.

(** C10, amended.  The update branch of [setBoundingRadius] is taken exactly
    when [value] is [!=] to the comparand: 1 when the stored radius is falsy,
    that is 0 or NaN, and 0 otherwise.  When it is not taken the world is
    unchanged; when it is, the radius is overwritten, its ordinal marked
    dirty and the cache invalidated.  The stored value itself is always [!=]
    to the comparand, so passing it again takes the update branch. *)
Theorem setBoundingRadius_branch
    (this : ref) (value : number) (w : World) (e : SpatialEntity) :
  spatial w this = Some e ->
  let stored := boundingRadius_ (state_ e) in
  let comparand :=
    match stored with
    | NaN => 1%js
    | JS.Inf _ => 0%js
    | Num q => if bool_decide (q = 0%Qc) then 1%js else 0%js
    end in
  setBoundingRadius this value w =
    (if JS.ne comparand value
     then
       store this
         (written (boundingRadiusOrdinal_ (state_ e))
            (set_boundingRadius_ value (state_ e)) e) w
     else w) /\
  JS.ne comparand stored = true.
Proof.
  intros He stored comparand. subst stored comparand.
  rewrite <- radius_comparand_cases. split.
  - apply (setBoundingRadius_eq _ _ _ _ He).
  - apply radius_comparand_self.
Qed.

Lemma setBoundingRadius_branch_witness :
  spatial Sample.new_world Sample.A = Some Sample.root_entity /\
  setBoundingRadius Sample.A 1%js Sample.new_world = Sample.new_world.
Proof.
  split; [reflexivity|].
  apply (setBoundingRadius_branch Sample.A 1%js Sample.new_world
           Sample.root_entity).
  reflexivity.
Defined.

(** ** The cache invariant *)

Lemma respects_cache_dirty (e e' : SpatialEntity) :
  transformDirty_ e' = true -> respects_cache e e'.
Proof.
  intros Hd. split; [|done].
  intros _ Hc. rewrite Hd in Hc. discriminate.
Qed.

Lemma respects_cache_recomputed (e : SpatialEntity) :
  respects_cache e (recomputed e).
Proof. split; [by intros _ _|]. intros H. by destruct H. Qed.

Lemma touches_one_modify_dirty (this : ref) (w : World) :
  touches_one w (modify this (set_transformDirty_ true) w).
Proof.
  unfold modify. destruct (spatial w this) as [e|] eqn:He; [|by left].
  right. exists this, e, (set_transformDirty_ true e).
  split; [done|]. split; [done|]. by apply respects_cache_dirty.
Qed.

Lemma touches_one_updateTransform (this : ref) (w : World) :
  touches_one w (updateTransform this w).
Proof.
  destruct (spatial w this) as [e|] eqn:He.
  - destruct (transformDirty_ e) eqn:Hd.
    + right. exists this, e, (recomputed e).
      rewrite (updateTransform_dirty _ _ _ He Hd).
      split; [done|]. split; [done|]. apply respects_cache_recomputed.
    + left. by rewrite (updateTransform_clean _ _ _ He Hd).
  - left. unfold updateTransform. by rewrite He.
Qed.

Lemma getBoundingSphere_world (this : ref) (result : Vec4.t) (w : World) :
  snd (getBoundingSphere this result w) =
  match spatial w this with
  | Some e => if transformDirty_ e then updateTransform this w else w
  | None => w
  end.
Proof.
  unfold getBoundingSphere. destruct (spatial w this) as [e|]; [|done].
  by destruct (spatial _ this).
Qed.

Lemma getTransform_world
    (fuel : nat) (this : ref) (result : Mat4.t) (opt : option ref) (w : World) :
  snd (getTransform fuel this result opt w) =
  match spatial w this with
  | Some e => if transformDirty_ e then updateTransform this w else w
  | None => w
  end.
Proof.
  unfold getTransform. destruct (spatial w this) as [e|]; [|done].
  by destruct (spatial _ this).
Qed.

Lemma touches_one_written (this : ref) (o : ordinal) (s : State) (w w0 : World) (e : SpatialEntity) :
  spatial w this = Some e -> heap w0 = heap w ->
  touches_one w (store this (written o s e) w0).
Proof.
  intros He Hh. right. exists this, e, (written o s e).
  split; [done|]. split; [simpl; by rewrite Hh|].
  by apply respects_cache_dirty.
Qed.

Lemma touches_one_run (op : Op) (w : World) : touches_one w (run op w).
Proof.
  destruct op as [this|this|this|this result|fuel this result opt
                 |this|this|this|this
                 |this value|this value|this value|this value]; simpl;
    try (by left).
  - apply touches_one_modify_dirty.
  - apply touches_one_modify_dirty.
  - apply touches_one_updateTransform.
  - rewrite getBoundingSphere_world.
    destruct (spatial w this) as [e|]; [|by left].
    destruct (transformDirty_ e); [apply touches_one_updateTransform|by left].
  - rewrite getTransform_world.
    destruct (spatial w this) as [e|]; [|by left].
    destruct (transformDirty_ e); [apply touches_one_updateTransform|by left].
  - destruct (spatial w this) as [e|] eqn:He;
      [|left; unfold setPosition; by rewrite He].
    rewrite (setPosition_eq _ _ _ _ He).
    destruct (Vec3.equals _ _); [by left|by apply touches_one_written].
  - destruct (spatial w this) as [e|] eqn:He;
      [|left; unfold setRotation; by rewrite He].
    rewrite (setRotation_eq _ _ _ _ He).
    destruct (Vec4.equals _ _); [by left|by apply touches_one_written].
  - destruct (spatial w this) as [e|] eqn:He;
      [|left; unfold setScale; by rewrite He].
    rewrite (setScale_eq _ _ _ _ He).
    destruct (Vec3.equals _ _); [by left|by apply touches_one_written].
  - destruct (spatial w this) as [e|] eqn:He;
      [|left; unfold setBoundingRadius; by rewrite He].
    rewrite (setBoundingRadius_eq _ _ _ _ He).
    destruct (JS.ne _ _); [by apply touches_one_written|by left].
Qed.

Lemma spatial_heap (w w' : World) (r : ref) :
  heap w' = heap w -> spatial w' r = spatial w r.
Proof. unfold spatial. by intros ->. Qed.

Lemma spatial_insert (w w' : World) (this r : ref) (e' : SpatialEntity) :
  heap w' = <[ this := Spatial e' ]> (heap w) ->
  spatial w' r = if decide (this = r) then Some e' else spatial w r.
Proof.
  intros Hh. unfold spatial. rewrite Hh, lookup_insert. by case_decide.
Qed.

(** Every operation keeps the invariant, for every entity of the world. *)
Lemma run_consistent (op : Op) (w : World) :
  world_consistent w -> world_consistent (run op w).
Proof.
  intros Hw.
  destruct (touches_one_run op w) as [Hh|(this & e0 & e1 & He0 & Hh & Hc & _)];
    intros r e He.
  - rewrite (spatial_heap _ _ _ Hh) in He. by eapply Hw.
  - rewrite (spatial_insert _ _ _ _ _ Hh) in He.
    case_decide; [|by eapply Hw].
    injection He as <-. apply Hc. by eapply Hw.
Qed.

(** An operation that changes the inputs of an entity's transform leaves
    that entity dirty. *)
Lemma run_change_dirties (op : Op) (w : World) (r : ref) (e e' : SpatialEntity) :
  spatial w r = Some e -> spatial (run op w) r = Some e' ->
  transform_values (state_ e') <> transform_values (state_ e) ->
  transformDirty_ e' = true.
Proof.
  intros He He' Hne.
  destruct (touches_one_run op w) as [Hh|(this & e0 & e1 & He0 & Hh & _ & Hv)].
  - rewrite (spatial_heap _ _ _ Hh), He in He'. by injection He' as ->.
  - rewrite (spatial_insert _ _ _ _ _ Hh) in He'.
    case_decide as Hr.
    + subst r. injection He' as <-. rewrite He0 in He.
      injection He as <-. by apply Hv.
    + rewrite He in He'. by injection He' as ->.
Qed.

(** A newly constructed entity is dirty, so the invariant holds of it. *)
Lemma SpatialEntity_new_consistent (super : Entity) (state : State) :
  cache_consistent (SpatialEntity_new super state).
Proof. intros Hd. discriminate Hd. Qed.

(** The invariant survives any sequence of operations. *)
Lemma run_all_consistent (ops : list Op) (w : World) :
  world_consistent w -> world_consistent (run_all ops w).
Proof.
  revert w. induction ops as [|op ops IH]; intros w Hw; [done|].
  simpl. apply IH. by apply run_consistent.
Qed.

(** ** The ancestor walk of getTransform *)

(** The loop re-reads [this.getParent()] on every turn, so [current] never
    moves past the first ancestor: when that ancestor is not [untilParent]
    the loop test holds forever. *)
Lemma getTransform_while_diverges
    (fuel : nat) (w : World) (this : ref) (untilParent : option ref)
    (result : Mat4.t) :
  getParent w this <> untilParent ->
  getTransform_while fuel w this untilParent (getParent w this) result = None.
Proof.
  intros Hne. revert result.
  induction fuel as [|fuel IH]; intros result; [done|].
  simpl. rewrite bool_decide_eq_true_2 by done. apply IH.
Qed.

Lemma getTransform_while_stops
    (fuel : nat) (w : World) (this : ref) (untilParent : option ref)
    (result : Mat4.t) :
  getTransform_while (S fuel) w this untilParent untilParent result
  = Some result.
Proof. simpl. rewrite bool_decide_eq_false_2; [done|]. by intros H. Qed.

Lemma getParent_updateTransform (this r : ref) (w : World) :
  getParent (updateTransform this w) r = getParent w r.
Proof.
  destruct (spatial w this) as [e|] eqn:He;
    [|unfold updateTransform; by rewrite He].
  destruct (transformDirty_ e) eqn:Hd;
    [|by rewrite (updateTransform_clean _ _ _ He Hd)].
  rewrite (updateTransform_dirty _ _ _ He Hd).
  unfold getParent; simpl. rewrite lookup_insert.
  case_decide as Hr; [|done]. subst r.
  unfold spatial in He. by destruct (heap w !! this) as [[e0|b]|]; simplify_eq.
Qed.

(** [getTransform] on a spatial entity runs the loop from the entity's own
    cached matrix, in the world left by [updateTransform]. *)
Lemma getTransform_unfold
    (fuel : nat) (this : ref) (result : Mat4.t) (opt : option ref)
    (w : World) (e : SpatialEntity) :
  spatial w this = Some e ->
  exists w' : World,
    getParent w' this = getParent w this /\
    fst (getTransform fuel this result opt w) =
    getTransform_while fuel w' this opt (getParent w' this)
      (transform_ (if transformDirty_ e then recomputed e else e)).
Proof.
  intros He. unfold getTransform. rewrite He.
  set (w' := if transformDirty_ e then updateTransform this w else w).
  assert (He' : spatial w' this =
                Some (if transformDirty_ e then recomputed e else e)).
  { subst w'. destruct (transformDirty_ e) eqn:Hd; [|done].
    by rewrite (updateTransform_spatial _ _ _ He), Hd. }
  assert (Hp : getParent w' this = getParent w this).
  { subst w'. destruct (transformDirty_ e); [|done].
    apply getParent_updateTransform. }
  exists w'. split; [exact Hp|].
  rewrite He'. cbn [fst]. f_equal. by destruct (transform_ _).
Qed.

(** When the entity's parent is not [opt_relativeToParent], the call does
    not return, whatever the fuel. *)
Lemma getTransform_never_returns
    (fuel : nat) (this : ref) (result : Mat4.t) (opt : option ref)
    (w : World) (e : SpatialEntity) :
  spatial w this = Some e ->
  getParent w this <> opt ->
  fst (getTransform fuel this result opt w) = None.
Proof.
  intros He Hne.
  destruct (getTransform_unfold fuel this result opt w e He)
    as (w' & Hp & ->).
  apply getTransform_while_diverges. by rewrite Hp.
Qed.

(** When the entity's parent is [opt_relativeToParent] (in particular when
    it has no parent and the argument is omitted), the call returns the
    entity's own matrix after one loop test. *)
Lemma getTransform_returns_own
    (fuel : nat) (this : ref) (result : Mat4.t) (opt : option ref)
    (w : World) (e : SpatialEntity) :
  spatial w this = Some e ->
  getParent w this = opt ->
  fst (getTransform (S fuel) this result opt w) =
  Some (transform_ (if transformDirty_ e then recomputed e else e)).
Proof.
  intros He Heq.
  destruct (getTransform_unfold (S fuel) this result opt w e He)
    as (w' & Hp & ->).
  rewrite Hp, Heq. apply getTransform_while_stops.
Qed.

Lemma family_world_spatial :
  exists a b : SpatialEntity,
    spatial Sample.family_world Sample.A = Some a /\
    spatial Sample.family_world Sample.B = Some b /\
    parent_ (entity_ a) = None /\
    parent_ (entity_ b) = Some Sample.A.
Proof. eexists _, _. by vm_compute. Qed.

(** C4, at the input where the code departs from it.  [B] is a spatial
    entity whose parent [A] is a spatial entity without a parent.  However
    many times the loop test of [B.getTransform(result)] is evaluated, the
    call has not returned: the walk reads [B]'s parent again on every turn
    and never reaches the root above [A].  The claim asks for the call to
    terminate with [Ta . Tb]. *)
Theorem getTransform_child_of_root_never_returns :
  getParent Sample.family_world Sample.B = Some Sample.A /\
  getParent Sample.family_world Sample.A = None /\
  is_Some (spatial Sample.family_world Sample.A) /\
  is_Some (spatial Sample.family_world Sample.B) /\
  forall (fuel : nat) (result : Mat4.t),
    fst (getTransform fuel Sample.B result None Sample.family_world) = None.
Proof.
  destruct family_world_spatial as (a & b & Ha & Hb & Hpa & Hpb).
  assert (HB : getParent Sample.family_world Sample.B = Some Sample.A)
    by (by vm_compute).
  split; [exact HB|]. split; [by vm_compute|].
  split; [by rewrite Ha|]. split; [by rewrite Hb|].
  intros fuel result.
  apply (getTransform_never_returns _ _ _ _ _ _ Hb).
  by rewrite HB.
Qed.

(** ** The cached bounding sphere *)

Lemma getBoundingSphere_clean
    (this : ref) (result : Vec4.t) (w : World) (e : SpatialEntity) :
  spatial w this = Some e -> transformDirty_ e = false ->
  getBoundingSphere this result w = (boundingSphere_ e, w).
Proof.
  intros He Hd. unfold getBoundingSphere. rewrite He, Hd, He.
  f_equal. by destruct (boundingSphere_ e).
Qed.

Lemma getBoundingSphere_dirty
    (this : ref) (result : Vec4.t) (w : World) (e : SpatialEntity) :
  spatial w this = Some e -> transformDirty_ e = true ->
  getBoundingSphere this result w =
  (sphere_of (state_ e), updateTransform this w).
Proof.
  intros He Hd. unfold getBoundingSphere. rewrite He, Hd.
  by rewrite (updateTransform_spatial _ _ _ He), Hd.
Qed.

(** *** Rounding *)

Lemma round_half_even_1 (p : Z) : JS.round_half_even p 1 = p.
Proof.
  unfold JS.round_half_even. by rewrite Z.mod_1_r, Z.div_1_r.
Qed.

Lemma Q2Qc_inject_Z_this (z : Z) : this (Q2Qc (inject_Z z)) = inject_Z z.
Proof. simpl. apply Qred_identity. simpl. apply Z.gcd_1_r. Qed.

(** An integer that fits in the significand is a value of the format:
    rounding leaves it alone. *)
Lemma round_binary_integer (prec emax z : Z) :
  (2 <= prec < emax)%Z -> (Z.abs z < 2 ^ prec)%Z ->
  JS.round_binary prec emax (Q2Qc (inject_Z z)) = Num (Q2Qc (inject_Z z)).
Proof.
  intros Hp Hz. unfold JS.round_binary.
  rewrite Q2Qc_inject_Z_this. cbn [Qnum Qden inject_Z].
  destruct (Z.eqb_spec z 0) as [->|Hz0]; [reflexivity|].
  assert (Ha : (0 < Z.abs z)%Z) by lia.
  change (Z.log2 1) with 0%Z. rewrite Z.sub_0_r.
  set (a := Z.abs z) in *.
  pose proof (Z.log2_spec a Ha) as [Hlo Hhi].
  pose proof (Z.log2_nonneg a) as Hnn.
  assert (He : (Z.log2 a < prec)%Z).
  { apply (Z.pow_lt_mono_r_iff 2); lia. }
  assert (Hge : JS.ge_pow2 a 1 (Z.log2 a) = true).
  { unfold JS.ge_pow2. rewrite (proj2 (Z.leb_le 0 _)) by lia.
    apply Z.leb_le. lia. }
  rewrite Hge.
  set (qe := Z.max (Z.log2 a - prec + 1) (3 - emax - prec)).
  assert (Hqe : (qe <= 0)%Z) by (subst qe; lia).
  destruct (Z.leb_spec 0 qe) as [Hq|Hq].
  - assert (qe = 0)%Z as -> by lia. cbn [andb].
    rewrite Z.pow_0_r, !Z.mul_1_r, round_half_even_1.
    assert (Hov : (2 ^ emax <=? a)%Z = false).
    { apply Z.leb_gt. apply Z.lt_trans with (2 ^ prec)%Z; [lia|].
      apply Z.pow_lt_mono_r; lia. }
    rewrite Hov. f_equal. f_equal.
    change (Z.to_pos (2 ^ Z.max (- 0) 0)) with 1%positive.
    unfold inject_Z. f_equal. subst a. lia.
  - cbn [andb]. rewrite round_half_even_1.
    rewrite (Z.max_r qe 0) by lia. rewrite (Z.max_l (- qe) 0) by lia.
    rewrite Z.pow_0_r, Z.mul_1_r. f_equal.
    apply Qc_is_canon. simpl. rewrite !Qred_correct.
    unfold Qeq, inject_Z; simpl.
    assert (Hpos : (0 < 2 ^ (- qe))%Z) by (apply Z.pow_pos_nonneg; lia).
    rewrite Z2Pos.id by lia. subst a. lia.
Qed.

Lemma of_Z_mul (x y : Z) : JS.mul (JS.of_Z x) (JS.of_Z y) = JS.of_Z (x * y).
Proof.
  unfold JS.mul, JS.of_Z. f_equal. apply Qc_is_canon. simpl.
  rewrite !Qred_correct. by rewrite inject_Z_mult.
Qed.

(** The product of two integers that has fewer than 24 bits is stored as
    it is. *)
Lemma fround_times_integer (x y : Z) :
  (Z.abs (x * y) < 2 ^ 24)%Z ->
  JS.fround (JS.times (JS.of_Z x) (JS.of_Z y)) = JS.of_Z (x * y).
Proof.
  intros Hxy. unfold JS.times. rewrite of_Z_mul.
  unfold JS.of_Z, JS.round64.
  rewrite round_binary_integer; [|lia|].
  - unfold JS.fround. apply round_binary_integer; lia.
  - apply Z.lt_trans with (2 ^ 24)%Z; [done|]. by apply Z.pow_lt_mono_r.
Qed.

(** What rounding does to a few numbers: 2^24 + 1 and 2^24 + 3 lie halfway
    between two float32 values and go to the one with the even significand;
    0.1 is not a float32; the largest float32 and the first number that
    overflows; the smallest subnormal and half of it. *)
Example fround_examples :
  JS.fround (JS.of_Z 16777217) = JS.of_Z 16777216 /\
  JS.fround (JS.of_Z 16777219) = JS.of_Z 16777220 /\
  JS.fround (Num (Q2Qc (1 # 10))) = Num (Q2Qc (13421773 # 134217728)) /\
  JS.fround (JS.of_Z (2 ^ 128 - 2 ^ 103 - 1)) = JS.of_Z (2 ^ 128 - 2 ^ 104) /\
  JS.fround (JS.of_Z (2 ^ 128 - 2 ^ 103)) = JS.Inf false /\
  JS.fround (JS.of_Z (- 2 ^ 128)) = JS.Inf true /\
  JS.fround (Num (Q2Qc (1 # 2 ^ 149))) = Num (Q2Qc (1 # 2 ^ 149)) /\
  JS.fround (Num (Q2Qc (1 # 2 ^ 150))) = 0%js /\
  JS.fround (Num (Q2Qc (3 # 2 ^ 150))) = Num (Q2Qc (1 # 2 ^ 148)) /\
  JS.round64 (Num (Q2Qc (1 # 10)))
    = Num (Q2Qc (3602879701896397 # 36028797018963968)) /\
  JS.round64 (JS.of_Z (2 ^ 53 + 1)) = JS.of_Z (2 ^ 53) /\
  JS.fround NaN = NaN.
Proof. repeat split; compute_done. Qed.

(** C5 as stated fails: the radius is stored into a Float32Array.  With
    bounding radius 16777217 and scale (1,1,1) the product is 16777217, and
    the radius cached by [updateTransform] is 16777216. *)
Lemma updateTransform_radius_is_rounded :
  exists e e' : SpatialEntity,
    spatial Sample.big_radius_world Sample.A = Some e /\
    transformDirty_ e = true /\
    spatial (updateTransform Sample.A Sample.big_radius_world) Sample.A
      = Some e' /\
    (boundingRadius_ (state_ e) *
     JS.Math_max (Vec3.i0 (scale_ (state_ e)))
       (JS.Math_max (Vec3.i1 (scale_ (state_ e)))
          (Vec3.i2 (scale_ (state_ e)))))%js
      = JS.of_Z 16777217 /\
    Vec4.i3 (boundingSphere_ e') = JS.of_Z 16777216 /\
    Vec4.i3 (boundingSphere_ e') <>
      (boundingRadius_ (state_ e) *
       JS.Math_max (Vec3.i0 (scale_ (state_ e)))
         (JS.Math_max (Vec3.i1 (scale_ (state_ e)))
            (Vec3.i2 (scale_ (state_ e)))))%js.
Proof.
  pose (e := default Sample.root_entity
               (spatial Sample.big_radius_world Sample.A)).
  assert (He : spatial Sample.big_radius_world Sample.A = Some e)
    by (vm_compute; reflexivity).
  assert (Hd : transformDirty_ e = true) by (vm_compute; reflexivity).
  exists e, (recomputed e). split; [exact He|]. split; [exact Hd|].
  split; [by rewrite (updateTransform_spatial _ _ _ He), Hd|].
  repeat split; compute_done.
Qed.

(** C5, amended.  After [updateTransform] has run on a dirty entity, the
    cached sphere is centred at the state's position and its radius is the
    float32 nearest to the double product
    boundingRadius * max(scale.x, scale.y, scale.z), whatever the values.
    For rational values the nested [Math.max] is the greatest of the three
    axes; when the radius and the greatest axis are integers whose product
    has fewer than 24 bits, the radius is that product exactly.
    [getBoundingSphere] then writes exactly this sphere into [result] and
    returns it, leaving the world as it is; called on the dirty entity
    itself, it runs [updateTransform] and returns the same sphere. *)
Theorem updateTransform_bounding_sphere
    (this : ref) (result : Vec4.t) (w : World) (e : SpatialEntity) :
  spatial w this = Some e ->
  transformDirty_ e = true ->
  let position := position_ (state_ e) in
  let scale := scale_ (state_ e) in
  let greatest :=
    JS.Math_max (Vec3.i0 scale)
      (JS.Math_max (Vec3.i1 scale) (Vec3.i2 scale)) in
  let sphere :=
    Vec4.make
      (Vec3.i0 position) (Vec3.i1 position) (Vec3.i2 position)
      (JS.fround (JS.round64 (boundingRadius_ (state_ e) * greatest)%js)) in
  let w' := updateTransform this w in
  (exists e' : SpatialEntity,
     spatial w' this = Some e' /\
     state_ e' = state_ e /\
     transformDirty_ e' = false /\
     boundingSphere_ e' = sphere) /\
  getBoundingSphere this result w' = (sphere, w') /\
  getBoundingSphere this result w = (sphere, w') /\
  (forall a b c : Qc,
     scale = Vec3.make (Num a) (Num b) (Num c) ->
     greatest = Num (Qc_max3 a b c)) /\
  (forall r m : Z,
     boundingRadius_ (state_ e) = JS.of_Z r ->
     greatest = JS.of_Z m ->
     (Z.abs (r * m) < 2 ^ 24)%Z ->
     Vec4.i3 sphere = JS.of_Z (r * m)).
Proof.
  intros He Hd position scale greatest sphere w'.
  assert (He' : spatial w' this = Some (recomputed e)).
  { subst w'. by rewrite (updateTransform_spatial _ _ _ He), Hd. }
  split; [by exists (recomputed e)|].
  split; [by rewrite (getBoundingSphere_clean _ _ _ _ He')|].
  split; [by rewrite (getBoundingSphere_dirty _ _ _ _ He Hd)|].
  split.
  - intros a b c Hs. subst greatest scale.
    rewrite Hs. cbn [Vec3.i0 Vec3.i1 Vec3.i2]. apply Math_max3.
  - intros r m Hr Hm Hrm. subst sphere. cbn [Vec4.i3].
    rewrite Hr, Hm. by apply fround_times_integer.
Qed.

Lemma updateTransform_bounding_sphere_witness :
  is_Some (spatial Sample.sphere_world Sample.A) /\
  fst (getBoundingSphere Sample.A Vec4.createFloat32 Sample.sphere_world)
  = Vec4.make (JS.of_Z 5) 0%js 0%js (JS.of_Z 6).
Proof.
  pose (e := default Sample.root_entity
               (spatial Sample.sphere_world Sample.A)).
  assert (He : spatial Sample.sphere_world Sample.A = Some e)
    by (vm_compute; reflexivity).
  assert (Hd : transformDirty_ e = true) by (vm_compute; reflexivity).
  split; [by exists e|].
  destruct (updateTransform_bounding_sphere Sample.A Vec4.createFloat32
              Sample.sphere_world e He Hd) as (_ & _ & Hg & _).
  rewrite Hg. cbn [fst]. compute_done.
Defined.

(** ** The cached matrix *)

(** On rational values the cached matrix sends a point through the scale,
    then the rotation, then the translation. *)
Lemma matrix_of_scale_rotate_translate
    (s : State) (px py pz qx qy qz qw sx sy sz x y z : Qc) :
  position_ s = Vec3.make (Num px) (Num py) (Num pz) ->
  rotation_ s = Vec4.make (Num qx) (Num qy) (Num qz) (Num qw) ->
  scale_ s = Vec3.make (Num sx) (Num sy) (Num sz) ->
  Mat4.multVec3 (matrix_of s) (Vec3.make (Num x) (Num y) (Num z)) =
  Mat4.multVec3 (Mat4.makeTranslate (Num px) (Num py) (Num pz))
    (Mat4.multVec3 (Quaternion.toRotationMatrix4 (rotation_ s))
       (Mat4.multVec3 (Mat4.makeScale (Num sx) (Num sy) (Num sz))
          (Vec3.make (Num x) (Num y) (Num z)))).
Proof.
  intros Hp Hq Hs. unfold matrix_of. rewrite Hp, Hq, Hs.
  cbv [Mat4.multVec3 Mat4.multMat Mat4.makeTranslate Mat4.makeScale
       Quaternion.toRotationMatrix4 JS.of_Z JS.add JS.mul JS.sub
       Mat4.i0 Mat4.i1 Mat4.i2 Mat4.i3 Mat4.i4 Mat4.i5 Mat4.i6 Mat4.i7
       Mat4.i8 Mat4.i9 Mat4.i10 Mat4.i11 Mat4.i12 Mat4.i13 Mat4.i14 Mat4.i15
       Vec3.i0 Vec3.i1 Vec3.i2 Vec4.i0 Vec4.i1 Vec4.i2 Vec4.i3].
  change (Q2Qc (inject_Z 0)) with 0%Qc.
  change (Q2Qc (inject_Z 1)) with 1%Qc.
  change (Q2Qc (inject_Z 2)) with (1 + 1)%Qc.
  f_equal; f_equal; ring.
Qed.

(** The matrix [toRotationMatrix4] builds from a unit quaternion rotates
    as the quaternion does. *)
Lemma toRotationMatrix4_rotates (q : quat) (x y z : Qc) :
  unit_quat q ->
  Mat4.multVec3
    (Quaternion.toRotationMatrix4
       (Vec4.make (Num (qx q)) (Num (qy q)) (Num (qz q)) (Num (qw q))))
    (Vec3.make (Num x) (Num y) (Num z)) =
  (let '(rx, ry, rz) := rotate q x y z in
   Vec3.make (Num rx) (Num ry) (Num rz)).
Proof.
  destruct q as [a b c d]. unfold unit_quat. intros Hu.
  cbv [Mat4.multVec3 Quaternion.toRotationMatrix4 JS.of_Z JS.add JS.mul
       JS.sub rotate hamilton conjugate qx qy qz qw
       Mat4.i0 Mat4.i1 Mat4.i2 Mat4.i3 Mat4.i4 Mat4.i5 Mat4.i6 Mat4.i7
       Mat4.i8 Mat4.i9 Mat4.i10 Mat4.i11 Mat4.i12 Mat4.i13 Mat4.i14 Mat4.i15
       Vec3.i0 Vec3.i1 Vec3.i2 Vec4.i0 Vec4.i1 Vec4.i2 Vec4.i3] in *.
  change (Q2Qc (inject_Z 1)) with 1%Qc. rewrite <- Hu.
  change (Q2Qc (inject_Z 0)) with 0%Qc.
  change (Q2Qc (inject_Z 2)) with (1 + 1)%Qc.
  f_equal; f_equal; ring.
Qed.



(** ** Lazy recomputation *)

(** C7.  [updateTransform] on a clean entity changes nothing: the heap (so
    the cached matrix, the cached sphere, the dirty flag and every state
    field) and the trace (so no [childTransformed] call) are as before.  In
    particular a second call right after a first one changes nothing. *)
Theorem updateTransform_clean_is_noop (this : ref) (w : World) (e : SpatialEntity) :
  spatial w this = Some e ->
  (transformDirty_ e = false -> updateTransform this w = w) /\
  updateTransform this (updateTransform this w) = updateTransform this w.
Proof.
  intros He. split; [by apply updateTransform_clean|].
  eapply updateTransform_clean.
  - apply (updateTransform_spatial _ _ _ He).
  - by destruct (transformDirty_ e) eqn:Hd.
Qed.

Lemma updateTransform_clean_is_noop_witness :
  spatial Sample.new_world Sample.A = Some Sample.root_entity /\
  updateTransform Sample.A (updateTransform Sample.A Sample.new_world)
  = updateTransform Sample.A Sample.new_world.
Proof.
  split; [reflexivity|].
  apply (updateTransform_clean_is_noop Sample.A Sample.new_world
           Sample.root_entity).
  reflexivity.
Defined.

(** The first call on a dirty entity with a listening parent does notify;
    the trace grows by exactly that call. *)
Lemma updateTransform_dirty_trace (this : ref) (w : World) (e : SpatialEntity) :
  spatial w this = Some e -> transformDirty_ e = true ->
  trace (updateTransform this w) =
  (trace w ++ notification (store this (recomputed e) w) this)%list.
Proof. intros He Hd. by rewrite (updateTransform_dirty _ _ _ He Hd). Qed.

(** ** Construction *)

(** C8 as stated fails: the scale of a newly constructed state is not
    (1,1,1). *)
Lemma fresh_state_scale_is_not_one :
  scale_ Sample.fresh_state <> (Vec3.make 1 1 1)%js.
Proof. compute_done. Qed.

(** C8, amended.  A newly constructed state holds scale (0,0,0): the
    constructor takes the array as [createFloat32] returns it, zero-filled,
    and writes nothing into it. *)
Theorem State_new_scale
    (tags_ : Tags) (super : EntityState) (variableTable : VariableTable) :
  scale_ (State_new tags_ super variableTable) = (Vec3.make 0 0 0)%js.
Proof. reflexivity. Qed.

(** The other fields of a new state: zero position, zero quaternion, zero
    radius. *)
Lemma State_new_fields
    (tags_ : Tags) (super : EntityState) (variableTable : VariableTable) :
  let s := State_new tags_ super variableTable in
  position_ s = (Vec3.make 0 0 0)%js /\
  rotation_ s = (Vec4.make 0 0 0 0)%js /\
  boundingRadius_ s = 0%js /\
  super_ s = super.
Proof. done. Qed.

(** ** Variable registration *)

(** C9.  [declareVariables] hands the list it received to the base class
    first and appends to what comes back exactly four descriptors, for
    position, rotation, scale and boundingRadius in this order; the rotation
    descriptor is built with a fifth argument, [true] (normalized), and the
    other three with none. *)
Theorem declareVariables_order
    (tags_ : Tags) (UPDATED_FREQUENTLY INTERPOLATED : Z) (Inherited : Type)
    (EntityState_declareVariables :
       list (Descriptor Inherited) -> list (Descriptor Inherited))
    (variableList : list (Descriptor Inherited)) :
  let flags := Z.lor UPDATED_FREQUENTLY INTERPOLATED in
  let own :=
    [ Variable_Vec3 (position tags_) flags getPosition setPosition;
      Variable_Quaternion (rotation tags_) flags getRotation setRotation true;
      Variable_Vec3 (scale tags_) flags getScale setScale;
      Variable_Float (boundingRadius tags_) flags
        getBoundingRadius setBoundingRadius ] in
  declareVariables tags_ UPDATED_FREQUENTLY INTERPOLATED Inherited
    EntityState_declareVariables variableList
  = (EntityState_declareVariables variableList ++ own)%list /\
  fifth_argument <$> own = [None; Some true; None; None] /\
  descriptor_tag <$> own =
    [Some (position tags_); Some (rotation tags_);
     Some (scale tags_); Some (boundingRadius tags_)].
Proof.
  intros flags own. split; [|done].
  unfold declareVariables, push. by rewrite <- !app_assoc.
Qed.

(** * Further properties of the operations *)

(** ** Every operation in one step *)

Lemma spatial_lookup (w : World) (r : ref) (e : SpatialEntity) :
  spatial w r = Some e <-> heap w !! r = Some (Spatial e).
Proof.
  unfold spatial. destruct (heap w !! r) as [[e0|b]|]; split; congruence.
Qed.

(** Rewriting the target with an entity that has the same base entity does
    not change which notification [updateTransform] would send. *)
Lemma notification_store (this : ref) (w : World) (e e' : SpatialEntity) :
  spatial w this = Some e -> entity_ e' = entity_ e ->
  notification (store this e' w) this = notification w this.
Proof.
  intros He Hb. apply spatial_lookup in He.
  unfold notification, getParent, has_childTransformed, store; simpl.
  rewrite lookup_insert_eq, He; simpl. rewrite Hb.
  destruct (parent_ (entity_ e)) as [p|]; [|done].
  rewrite lookup_insert. case_decide as Hp; [|done].
  subst p. rewrite He. simpl. by rewrite Hb.
Qed.

Lemma world_same (this : ref) (w : World) (e : SpatialEntity) :
  spatial w this = Some e ->
  {| heap := <[ this := Spatial e ]> (heap w); trace := trace w ++ [] |} = w.
Proof.
  intros He. apply spatial_lookup in He. destruct w as [h t]; simpl in *.
  by rewrite insert_id, app_nil_r.
Qed.

Lemma run_not_spatial (op : Op) (w : World) :
  spatial w (target op) = None -> run op w = w.
Proof.
  destruct op; simpl; intros He; try done;
    unfold postNetworkUpdate, invalidateTransform, modify, updateTransform,
      getBoundingSphere, getTransform, setPosition, setRotation, setScale,
      setBoundingRadius;
    by rewrite He.
Qed.

Lemma read_outcome (this : ref) (w : World) (e : SpatialEntity) :
  spatial w this = Some e ->
  (if transformDirty_ e then updateTransform this w else w) =
  {| heap :=
       <[ this :=
            Spatial (if transformDirty_ e then recomputed e else e) ]>
         (heap w);
     trace :=
       trace w ++ (if transformDirty_ e then notification w this else []) |}.
Proof.
  intros He. destruct (transformDirty_ e) eqn:Hd.
  - rewrite (updateTransform_dirty _ _ _ He Hd).
    by rewrite (notification_store _ _ e).
  - by rewrite world_same.
Qed.

(** [run] rewrites the target as [outcome] says and appends the calls
    [outcome] lists; nothing else changes. *)
Lemma run_outcome (op : Op) (w : World) (e : SpatialEntity) :
  spatial w (target op) = Some e ->
  run op w =
  {| heap := <[ target op := Spatial (fst (outcome op w e)) ]> (heap w);
     trace := trace w ++ snd (outcome op w e) |}.
Proof.
  destruct op as [this|this|this|this result|fuel this result opt
                 |this|this|this|this
                 |this value|this value|this value|this value];
    simpl; intros He; try (by rewrite world_same).
  - rewrite (postNetworkUpdate_eq _ _ _ He).
    unfold store. by rewrite app_nil_r.
  - rewrite (invalidateTransform_eq _ _ _ He).
    unfold store. by rewrite app_nil_r.
  - destruct (transformDirty_ e) eqn:Hd.
    + rewrite (updateTransform_dirty _ _ _ He Hd).
      by rewrite (notification_store _ _ e).
    + rewrite (updateTransform_clean _ _ _ He Hd). by rewrite world_same.
  - rewrite getBoundingSphere_world, He, (read_outcome _ _ _ He).
    by destruct (transformDirty_ e).
  - rewrite getTransform_world, He, (read_outcome _ _ _ He).
    by destruct (transformDirty_ e).
  - rewrite (setPosition_eq _ _ _ _ He).
    destruct (Vec3.equals _ _); simpl; [by rewrite world_same|done].
  - rewrite (setRotation_eq _ _ _ _ He).
    destruct (Vec4.equals _ _); simpl; [by rewrite world_same|done].
  - rewrite (setScale_eq _ _ _ _ He).
    destruct (Vec3.equals _ _); simpl; [by rewrite world_same|].
    unfold store. by rewrite app_nil_r.
  - rewrite (setBoundingRadius_eq _ _ _ _ He).
    destruct (JS.ne _ _); simpl; [|by rewrite world_same].
    unfold store. by rewrite app_nil_r.
Qed.

(** What a reference points to after an operation. *)
Lemma run_spatial (op : Op) (w : World) (r : ref) (e : SpatialEntity) :
  spatial w r = Some e ->
  spatial (run op w) r =
  Some (if decide (r = target op) then fst (outcome op w e) else e).
Proof.
  intros He. destruct (spatial w (target op)) as [e0|] eqn:Ht.
  - rewrite (run_outcome _ _ _ Ht). unfold spatial at 1; simpl.
    rewrite lookup_insert. case_decide as Hr.
    + subst r. rewrite decide_True by done. congruence.
    + rewrite decide_False by done. by apply spatial_lookup in He as ->.
  - rewrite (run_not_spatial _ _ Ht), He.
    case_decide; [congruence|done].
Qed.

Lemma run_lookup_other (op : Op) (w : World) (r : ref) :
  spatial w r = None -> heap (run op w) !! r = heap w !! r.
Proof.
  intros Hr. destruct (spatial w (target op)) as [e0|] eqn:Ht.
  - rewrite (run_outcome _ _ _ Ht); simpl.
    rewrite lookup_insert_ne; [done|]. intros <-. congruence.
  - by rewrite (run_not_spatial _ _ Ht).
Qed.

Lemma run_trace (op : Op) (w : World) (e : SpatialEntity) :
  spatial w (target op) = Some e ->
  trace (run op w) = (trace w ++ snd (outcome op w e))%list.
Proof. intros He. by rewrite (run_outcome _ _ _ He). Qed.

(** ** Sample worlds, continued *)

Lemma new_world_consistent : world_consistent Sample.new_world.
Proof.
  intros r e He. apply spatial_lookup in He.
  unfold Sample.new_world in He; simpl in He.
  apply lookup_singleton_Some in He as [_ [= <-]].
  apply SpatialEntity_new_consistent.
Qed.

Lemma family_world_consistent : world_consistent Sample.family_world.
Proof.
  assert (Hrun : Sample.family_world =
    (run_all
       [SetScale Sample.A (Vec3.make 1 1 1)%js;
        SetRotation Sample.A (Vec4.make 0 0 0 1)%js;
        SetPosition Sample.A (Vec3.make (JS.of_Z 10) 0 0)%js;
        SetScale Sample.B (Vec3.make 2 1 1)%js;
        SetRotation Sample.B (Vec4.make 0 0 0 1)%js;
        SetPosition Sample.B (Vec3.make (JS.of_Z 5) 0 0)%js;
        UpdateTransform Sample.A; UpdateTransform Sample.B]
       {| heap :=
            <[ Sample.B := Spatial Sample.child_entity ]>
              {[ Sample.A := Spatial Sample.root_entity ]};
          trace := [] |})) by (vm_compute; reflexivity).
  rewrite Hrun. apply run_all_consistent.
  intros r e He. apply spatial_lookup in He. simpl in He.
  apply lookup_insert_Some in He as [[_ [= <-]]|[_ He]].
  - apply SpatialEntity_new_consistent.
  - apply lookup_singleton_Some in He as [_ [= <-]].
    apply SpatialEntity_new_consistent.
Qed.

(** ** getTransform, in general *)

(** X2.  Whenever [getTransform] returns, the entity's parent is exactly
    [opt_relativeToParent] and the matrix returned is the entity's own
    cached matrix: no returned matrix ever has an ancestor's transform
    multiplied in.  For any other [opt_relativeToParent] (a grandparent, or
    none when the entity has a parent) the call does not return, whatever
    the fuel. *)
Theorem getTransform_returned_is_own
    (fuel : nat) (this : ref) (result : Mat4.t) (opt : option ref)
    (w : World) (e : SpatialEntity) (m : Mat4.t) :
  spatial w this = Some e ->
  fst (getTransform fuel this result opt w) = Some m ->
  getParent w this = opt /\
  m = transform_ (if transformDirty_ e then recomputed e else e).
Proof.
  intros He Hm.
  destruct (decide (getParent w this = opt)) as [Hp|Hp].
  - split; [done|]. destruct fuel as [|fuel].
    + destruct (getTransform_unfold 0 this result opt w e He)
        as (w' & _ & Hz).
      rewrite Hz in Hm. discriminate Hm.
    + rewrite (getTransform_returns_own _ _ _ _ _ _ He Hp) in Hm.
      by injection Hm as <-.
  - rewrite (getTransform_never_returns _ _ _ _ _ _ He Hp) in Hm.
    discriminate Hm.
Qed.

Lemma getTransform_returned_is_own_witness :
  spatial Sample.new_world Sample.A = Some Sample.root_entity /\
  fst (getTransform 1 Sample.A Mat4.createFloat32 None Sample.new_world)
    = Some (matrix_of Sample.fresh_state) /\
  getParent Sample.new_world Sample.A = None.
Proof.
  assert (He : spatial Sample.new_world Sample.A = Some Sample.root_entity)
    by reflexivity.
  assert (Hm : fst (getTransform 1 Sample.A Mat4.createFloat32 None
                      Sample.new_world)
               = Some (matrix_of Sample.fresh_state))
    by reflexivity.
  split; [exact He|]. split; [exact Hm|].
  exact (proj1 (getTransform_returned_is_own 1 Sample.A Mat4.createFloat32
                  None Sample.new_world Sample.root_entity
                  (matrix_of Sample.fresh_state) He Hm)).
Defined.

(** ** Reading the bounding sphere *)

Lemma getBoundingSphere_current
    (this : ref) (result : Vec4.t) (w : World) (e : SpatialEntity) :
  world_consistent w -> spatial w this = Some e ->
  fst (getBoundingSphere this result w) = sphere_of (state_ e).
Proof.
  intros Hw He. destruct (transformDirty_ e) eqn:Hd.
  - by rewrite (getBoundingSphere_dirty _ _ _ _ He Hd).
  - rewrite (getBoundingSphere_clean _ _ _ _ He Hd). simpl.
    by apply (Hw this e He).
Qed.

Lemma call_all_consistent (cs : list Call) (w : World) :
  Forall own_result cs -> world_consistent w ->
  world_consistent (call_all cs w).
Proof.
  intros Hcs. revert w.
  induction Hcs as [|c cs Hc _ IH]; intros w Hw; [done|].
  simpl. apply IH. destruct c as [op|]; [|done]. by apply run_consistent.
Qed.

(** X3.  Reads are never stale, as long as no call is handed a state's own
    array as [result].  Start from a world whose caches are consistent (for
    instance one of newly constructed entities) and make any sequence of
    such calls, on any entities, in any order; [getBoundingSphere] then
    returns the sphere determined by the entity's state as it is now:
    centre at the current position, radius the float32 nearest to the
    current bounding radius times the largest current scale axis. *)
Theorem getBoundingSphere_after_operations
    (cs : list Call) (this : ref) (result : Vec4.t) (w : World)
    (e : SpatialEntity) :
  Forall own_result cs ->
  world_consistent w ->
  spatial (call_all cs w) this = Some e ->
  fst (getBoundingSphere this result (call_all cs w)) = sphere_of (state_ e).
Proof.
  intros Hcs Hw He. apply getBoundingSphere_current; [|done].
  by apply call_all_consistent.
Qed.

Lemma getBoundingSphere_after_operations_witness :
  let cs :=
    [Do (SetPosition Sample.A (Vec3.make (JS.of_Z 5) 0 0)%js);
     Do (UpdateTransform Sample.A);
     Do (SetScale Sample.A (Vec3.make 2 1 1)%js);
     Do (SetBoundingRadius Sample.A (JS.of_Z 16777217))] in
  Forall own_result cs /\
  world_consistent Sample.new_world /\
  is_Some (spatial (call_all cs Sample.new_world) Sample.A) /\
  fst (getBoundingSphere Sample.A Vec4.createFloat32
         (call_all cs Sample.new_world))
  = (Vec4.make (JS.of_Z 5) 0 0 (JS.of_Z 33554432))%js.
Proof.
  intros cs.
  pose (e := default Sample.root_entity
               (spatial (call_all cs Sample.new_world) Sample.A)).
  assert (He : spatial (call_all cs Sample.new_world) Sample.A = Some e)
    by (vm_compute; reflexivity).
  assert (Hcs : Forall own_result cs) by (repeat constructor).
  split; [exact Hcs|].
  split; [exact new_world_consistent|]. split; [by exists e|].
  etrans.
  - exact (getBoundingSphere_after_operations cs Sample.A
             Vec4.createFloat32 Sample.new_world e Hcs
             new_world_consistent He).
  - compute_done.
Defined.

(** X4.  [postNetworkUpdate] does what [invalidateTransform] does: it sends
    no call out and leaves the state, dirty bits included, as it was, but
    the next [getBoundingSphere] recomputes both caches from the state,
    whatever the caches held before and whether or not they were marked
    clean. *)
Theorem postNetworkUpdate_forces_recompute
    (this : ref) (result : Vec4.t) (w : World) (e : SpatialEntity) :
  spatial w this = Some e ->
  let w1 := postNetworkUpdate this w in
  w1 = invalidateTransform this w /\
  trace w1 = trace w /\
  spatial w1 this = Some (set_transformDirty_ true e) /\
  fst (getBoundingSphere this result w1) = sphere_of (state_ e) /\
  spatial (snd (getBoundingSphere this result w1)) this
  = Some (recomputed e).
Proof.
  intros He w1. subst w1. rewrite (postNetworkUpdate_eq _ _ _ He).
  assert (He1 : spatial (store this (set_transformDirty_ true e) w) this
                = Some (set_transformDirty_ true e))
    by apply spatial_store_eq.
  split; [by rewrite (invalidateTransform_eq _ _ _ He)|].
  split; [done|]. split; [done|].
  rewrite (getBoundingSphere_dirty _ _ _ _ He1 eq_refl). simpl.
  split; [done|]. by rewrite (updateTransform_spatial _ _ _ He1).
Qed.

Lemma postNetworkUpdate_forces_recompute_witness :
  is_Some (spatial Sample.clean_world Sample.A) /\
  exists e : SpatialEntity,
    spatial (postNetworkUpdate Sample.A Sample.clean_world) Sample.A
      = Some e /\
    transformDirty_ e = true.
Proof.
  split; [rewrite clean_world_spatial; by eexists|].
  destruct (postNetworkUpdate_forces_recompute Sample.A Vec4.createFloat32
              Sample.clean_world _ clean_world_spatial)
    as (_ & _ & He & _).
  eexists. split; [exact He|reflexivity].
Defined.

(** X5.  [getBoundingSphere] is a pure accessor once it has run: a second
    call returns the same sphere and leaves the world, trace of outgoing
    calls included, exactly as the first call left it.  What [result] held
    before either call does not matter. *)
Theorem getBoundingSphere_twice
    (this : ref) (result1 result2 : Vec4.t) (w : World) (e : SpatialEntity) :
  spatial w this = Some e ->
  getBoundingSphere this result2 (snd (getBoundingSphere this result1 w))
  = getBoundingSphere this result1 w.
Proof.
  intros He. destruct (transformDirty_ e) eqn:Hd.
  - rewrite (getBoundingSphere_dirty _ _ _ _ He Hd). simpl.
    apply (getBoundingSphere_clean _ _ _ (recomputed e)); [|done].
    by rewrite (updateTransform_spatial _ _ _ He), Hd.
  - rewrite (getBoundingSphere_clean _ _ _ _ He Hd). simpl.
    by apply getBoundingSphere_clean.
Qed.

Lemma getBoundingSphere_twice_witness :
  spatial Sample.new_world Sample.A = Some Sample.root_entity /\
  getBoundingSphere Sample.A (Vec4.make 1 1 1 1)%js
    (snd (getBoundingSphere Sample.A Vec4.createFloat32 Sample.new_world))
  = getBoundingSphere Sample.A Vec4.createFloat32 Sample.new_world.
Proof.
  split; [reflexivity|].
  apply (getBoundingSphere_twice Sample.A Vec4.createFloat32
           (Vec4.make 1 1 1 1)%js Sample.new_world Sample.root_entity).
  reflexivity.
Defined.

(** X6.  The bounding sphere does not depend on the rotation: in a world
    whose caches are consistent, [getBoundingSphere] returns the same sphere
    after [setRotation], whatever quaternion is set, as before it. *)
Theorem setRotation_keeps_bounding_sphere
    (this : ref) (value : Quaternion.t) (result : Vec4.t) (w : World)
    (e : SpatialEntity) :
  world_consistent w ->
  spatial w this = Some e ->
  fst (getBoundingSphere this result (setRotation this value w))
  = fst (getBoundingSphere this result w).
Proof.
  intros Hw He.
  rewrite (getBoundingSphere_current _ _ _ _ Hw He).
  assert (Hw' : world_consistent (setRotation this value w))
    by apply (run_consistent (SetRotation this value) w Hw).
  pose proof (run_spatial (SetRotation this value) w this e He) as He'.
  simpl in He'. rewrite decide_True in He' by done.
  rewrite (getBoundingSphere_current _ _ _ _ Hw' He').
  by destruct (Vec4.equals _ _).
Qed.

Lemma setRotation_keeps_bounding_sphere_witness :
  world_consistent Sample.family_world /\
  is_Some (spatial Sample.family_world Sample.B) /\
  fst (getBoundingSphere Sample.B Vec4.createFloat32
         (setRotation Sample.B (Vec4.make 1 0 0 0)%js Sample.family_world))
  = fst (getBoundingSphere Sample.B Vec4.createFloat32 Sample.family_world).
Proof.
  pose (e := default Sample.root_entity
               (spatial Sample.family_world Sample.B)).
  assert (He : spatial Sample.family_world Sample.B = Some e)
    by (vm_compute; reflexivity).
  split; [exact family_world_consistent|]. split; [by exists e|].
  exact (setRotation_keeps_bounding_sphere Sample.B (Vec4.make 1 0 0 0)%js
           Vec4.createFloat32 Sample.family_world e
           family_world_consistent He).
Defined.

(** ** What operations leave alone *)

Lemma outcome_base (op : Op) (w : World) (e : SpatialEntity) :
  entity_ (fst (outcome op w e)) = entity_ e /\
  ordinals (state_ (fst (outcome op w e))) = ordinals (state_ e).
Proof.
  destruct op; simpl;
    repeat match goal with
           | |- context [if ?b then _ else _] => destruct b
           end; done.
Qed.

Lemma outcome_dirtyBits (op : Op) (w : World) (e : SpatialEntity) :
  dirtyBits (super_ (state_ e))
    ⊆ dirtyBits (super_ (state_ (fst (outcome op w e)))) /\
  dirtyBits (super_ (state_ (fst (outcome op w e))))
    ⊆ dirtyBits (super_ (state_ e)) ∪ marked op (state_ e).
Proof.
  destruct op; simpl;
    repeat match goal with
           | |- context [if ?b then _ else _] => destruct b
           end; simpl; set_unfold; tauto.
Qed.

Lemma outcome_state (op : Op) (w : World) (e : SpatialEntity) :
  is_setter op = false -> state_ (fst (outcome op w e)) = state_ e.
Proof.
  destruct op; simpl; try discriminate; intros _;
    by destruct (transformDirty_ e).
Qed.

Lemma run_lookup_ne (op : Op) (w : World) (r : ref) :
  r <> target op -> heap (run op w) !! r = heap w !! r.
Proof.
  intros Hr. destruct (spatial w (target op)) as [e0|] eqn:Ht.
  - rewrite (run_outcome _ _ _ Ht); simpl. by rewrite lookup_insert_ne.
  - by rewrite (run_not_spatial _ _ Ht).
Qed.

(** X8.  Dirty bits only accumulate: no operation clears a dirty bit, and
    an operation adds at most one, the ordinal of the field its setter
    writes; operations that are not setters, and operations on another
    entity, add none. *)
Theorem dirty_bits_grow_by_own_ordinal
    (op : Op) (w : World) (r : ref) (e e' : SpatialEntity) :
  spatial w r = Some e ->
  spatial (run op w) r = Some e' ->
  dirtyBits (super_ (state_ e)) ⊆ dirtyBits (super_ (state_ e')) /\
  dirtyBits (super_ (state_ e'))
    ⊆ dirtyBits (super_ (state_ e)) ∪ marked op (state_ e) /\
  (r <> target op -> e' = e).
Proof.
  intros He He'. rewrite (run_spatial _ _ _ _ He) in He'.
  injection He' as <-. case_decide as Hr.
  - split; [apply outcome_dirtyBits|]. split; [apply outcome_dirtyBits|].
    by intros [].
  - split; [done|]. split; [set_solver|done].
Qed.

Lemma dirty_bits_grow_by_own_ordinal_witness :
  let op := SetScale Sample.A (Vec3.make 2 1 1)%js in
  exists e' : SpatialEntity,
    spatial Sample.new_world Sample.A = Some Sample.root_entity /\
    spatial (run op Sample.new_world) Sample.A = Some e' /\
    dirtyBits (super_ (state_ e')) ⊆ ∅ ∪ {[ 2%N ]}.
Proof.
  intros op.
  pose (e' := default Sample.root_entity
                (spatial (run op Sample.new_world) Sample.A)).
  assert (He : spatial Sample.new_world Sample.A = Some Sample.root_entity)
    by reflexivity.
  assert (He' : spatial (run op Sample.new_world) Sample.A = Some e')
    by (vm_compute; reflexivity).
  exists e'. split; [exact He|]. split; [exact He'|].
  exact (proj1 (proj2 (dirty_bits_grow_by_own_ordinal op Sample.new_world
                         Sample.A Sample.root_entity e' He He'))).
Defined.

(** X10.  The transitions of the dirty flag.  An entity goes from dirty to
    clean only in an operation that runs [updateTransform] on it, and then
    both caches are the ones its state determines.  It goes from clean to
    dirty only in an invalidation or a setter invoked on it, and then both
    caches still hold what they held: nothing is recomputed eagerly. *)
Theorem dirty_flag_transitions
    (op : Op) (w : World) (r : ref) (e e' : SpatialEntity) :
  spatial w r = Some e ->
  spatial (run op w) r = Some e' ->
  (transformDirty_ e = true -> transformDirty_ e' = false ->
   is_read op = true /\ target op = r /\ e' = recomputed e) /\
  (transformDirty_ e = false -> transformDirty_ e' = true ->
   (is_invalidation op = true \/ is_setter op = true) /\ target op = r /\
   boundingSphere_ e' = boundingSphere_ e /\ transform_ e' = transform_ e).
Proof.
  intros He He'. rewrite (run_spatial _ _ _ _ He) in He'.
  injection He' as <-. case_decide as Hr; [|split; congruence].
  split; intros Hd Hd'; destruct op; simpl in *;
    repeat match goal with
           | H : context [if ?b then _ else _] |- _ => destruct b eqn:?
           | |- context [if ?b then _ else _] => destruct b eqn:?
           end; simpl in *; try congruence; auto.
Qed.

Lemma dirty_flag_transitions_witness :
  exists e' : SpatialEntity,
    spatial Sample.new_world Sample.A = Some Sample.root_entity /\
    spatial (run (GetBoundingSphere Sample.A Vec4.createFloat32)
               Sample.new_world) Sample.A = Some e' /\
    e' = recomputed Sample.root_entity.
Proof.
  pose (op := GetBoundingSphere Sample.A Vec4.createFloat32).
  pose (e' := default Sample.root_entity
                (spatial (run op Sample.new_world) Sample.A)).
  assert (He : spatial Sample.new_world Sample.A = Some Sample.root_entity)
    by reflexivity.
  assert (He' : spatial (run op Sample.new_world) Sample.A = Some e')
    by (vm_compute; reflexivity).
  exists e'. split; [exact He|]. split; [exact He'|].
  destruct (dirty_flag_transitions op Sample.new_world Sample.A
              Sample.root_entity e' He He') as [Hclean _].
  apply Hclean; vm_compute; reflexivity.
Defined.

(** ** Outgoing calls *)

Lemma notification_cases (w : World) (this p c : ref) :
  ChildTransformed p c ∈ notification w this ->
  c = this /\ getParent w this = Some p /\
  has_childTransformed w (Some p) = true.
Proof.
  unfold notification. destruct (getParent w this) as [p0|].
  - destruct (has_childTransformed w (Some p0)) eqn:Hc.
    + intros H. apply list_elem_of_singleton in H. by injection H as -> ->.
    + intros H. by apply not_elem_of_nil in H.
  - intros H. by apply not_elem_of_nil in H.
Qed.

Lemma notification_length (w : World) (this : ref) :
  (length (notification w this) <= 1)%nat.
Proof.
  unfold notification. destruct (getParent w this) as [p|]; [|simpl; lia].
  destruct (has_childTransformed w (Some p)); simpl; lia.
Qed.

Lemma notification_no_log
    (w : World) (this : ref) (label : string) (args : list number) :
  LogWrite label args ∉ notification w this.
Proof.
  unfold notification. destruct (getParent w this) as [p0|];
    [destruct (has_childTransformed w (Some p0))|];
    intros Hin; try (by apply not_elem_of_nil in Hin).
  apply list_elem_of_singleton in Hin. discriminate Hin.
Qed.

Lemma outcome_events (op : Op) (w : World) (e : SpatialEntity) :
  (length (snd (outcome op w e)) <= 1)%nat /\
  (forall p c : ref,
     ChildTransformed p c ∈ snd (outcome op w e) ->
     is_read op = true /\ c = target op /\ getParent w c = Some p /\
     has_childTransformed w (Some p) = true) /\
  (forall (label : string) (args : list number),
     LogWrite label args ∈ snd (outcome op w e) -> is_setter op = true).
Proof.
  destruct op as [this|this|this|this result|fuel this result opt
                 |this|this|this|this
                 |this value|this value|this value|this value];
    cbn [outcome];
    repeat match goal with
           | |- context [if ?b then _ else _] => destruct b
           end;
    cbn [fst snd is_read is_setter target];
    (split; [first [apply notification_length|simpl; lia]|]);
    split; intros ? ? Hin;
    first [ by apply not_elem_of_nil in Hin
          | by apply notification_no_log in Hin
          | by apply notification_cases in Hin as (-> & ? & ?)
          | by (apply list_elem_of_singleton in Hin; discriminate Hin)
          | done ].
Qed.

(** X11.  The calls an operation sends out.  Every operation appends at most
    one event to the trace and removes none.  A [childTransformed] call is
    only ever sent by an operation that runs [updateTransform], on behalf of
    the entity it is invoked on, to that entity's direct parent, and only if
    the parent has the method; setters and invalidations never notify the
    parent.  A log line is only ever written by a setter. *)
Theorem run_trace_extension (op : Op) (w : World) :
  exists evs : list Event,
    trace (run op w) = (trace w ++ evs)%list /\
    (length evs <= 1)%nat /\
    (forall p c : ref,
       ChildTransformed p c ∈ evs ->
       is_read op = true /\ c = target op /\ getParent w c = Some p /\
       has_childTransformed w (Some p) = true) /\
    (forall (label : string) (args : list number),
       LogWrite label args ∈ evs -> is_setter op = true).
Proof.
  destruct (spatial w (target op)) as [e|] eqn:Ht.
  - exists (snd (outcome op w e)).
    split; [by apply run_trace|]. apply outcome_events.
  - exists []. rewrite (run_not_spatial _ _ Ht), app_nil_r.
    split; [done|]. split; [simpl; lia|].
    split; intros ? ? Hin; by apply not_elem_of_nil in Hin.
Qed.

(** X12.  When [updateTransform] recomputes, it calls [childTransformed]
    exactly once, on the entity's direct parent with the entity itself as
    argument, if the entity has a parent and that parent has the method;
    otherwise (no parent, or a parent without the method) it calls nothing.
    It never notifies a grandparent. *)
Theorem updateTransform_notifies_parent_once
    (this : ref) (w : World) (e : SpatialEntity) :
  spatial w this = Some e ->
  transformDirty_ e = true ->
  trace (updateTransform this w) =
  (trace w ++
   match parent_ (entity_ e) with
   | Some p =>
       if has_childTransformed w (Some p)
       then [ChildTransformed p this] else []
   | None => []
   end)%list.
Proof.
  intros He Hd. rewrite (updateTransform_dirty _ _ _ He Hd); simpl.
  rewrite (notification_store _ _ e) by done.
  unfold notification, getParent.
  apply spatial_lookup in He. by rewrite He.
Qed.

Lemma updateTransform_notifies_parent_once_witness :
  spatial Sample.new_world Sample.A = Some Sample.root_entity /\
  transformDirty_ Sample.root_entity = true /\
  trace (updateTransform Sample.A Sample.new_world) = [].
Proof.
  split; [reflexivity|]. split; [reflexivity|].
  exact (updateTransform_notifies_parent_once Sample.A Sample.new_world
           Sample.root_entity eq_refl eq_refl).
Defined.

(** ** Writing and reading back *)

Lemma JS_eq_NaN_r (a : number) : JS.eq a NaN = false.
Proof. by destruct a. Qed.

Lemma Vec3_equals_NaN (u v : Vec3.t) : has_NaN3 v -> Vec3.equals u v = false.
Proof.
  unfold Vec3.equals. intros [H|[H|H]]; rewrite H, JS_eq_NaN_r;
    by rewrite ?andb_false_r.
Qed.

Lemma Vec4_equals_NaN (u v : Vec4.t) : has_NaN4 v -> Vec4.equals u v = false.
Proof.
  unfold Vec4.equals. intros [H|[H|[H|H]]]; rewrite H, JS_eq_NaN_r;
    by rewrite ?andb_false_r.
Qed.

(** X13.  The three vector setters can be read back.  After
    [setPosition(v)], [getPosition()] is [v] itself when the setter wrote,
    and is component-wise [==] to [v], with the world untouched, when it did
    not; likewise for rotation and scale. *)
Theorem vector_setters_read_back (this : ref) (w : World) (e : SpatialEntity) :
  spatial w this = Some e ->
  (forall v : Vec3.t,
     exists e' : SpatialEntity,
       spatial (setPosition this v w) this = Some e' /\
       (getPosition (state_ e') = v \/
        setPosition this v w = w /\
        Vec3.equals (getPosition (state_ e')) v = true)) /\
  (forall v : Quaternion.t,
     exists e' : SpatialEntity,
       spatial (setRotation this v w) this = Some e' /\
       (getRotation (state_ e') = v \/
        setRotation this v w = w /\
        Vec4.equals (getRotation (state_ e')) v = true)) /\
  (forall v : Vec3.t,
     exists e' : SpatialEntity,
       spatial (setScale this v w) this = Some e' /\
       (getScale (state_ e') = v \/
        setScale this v w = w /\
        Vec3.equals (getScale (state_ e')) v = true)).
Proof.
  intros He. repeat split; intros v.
  - rewrite (setPosition_eq _ _ _ _ He).
    destruct (Vec3.equals _ _) eqn:Heq.
    + exists e. split; [done|]. by right.
    + eexists. split; [apply spatial_store_eq|]. by left.
  - rewrite (setRotation_eq _ _ _ _ He).
    destruct (Vec4.equals _ _) eqn:Heq.
    + exists e. split; [done|]. by right.
    + eexists. split; [apply spatial_store_eq|]. by left.
  - rewrite (setScale_eq _ _ _ _ He).
    destruct (Vec3.equals _ _) eqn:Heq.
    + exists e. split; [done|]. by right.
    + eexists. split; [apply spatial_store_eq|]. by left.
Qed.

Lemma vector_setters_read_back_witness :
  let v := (Vec3.make 2 1 1)%js in
  spatial Sample.new_world Sample.A = Some Sample.root_entity /\
  exists e' : SpatialEntity,
    spatial (setScale Sample.A v Sample.new_world) Sample.A = Some e' /\
    (getScale (state_ e') = v \/
     setScale Sample.A v Sample.new_world = Sample.new_world /\
     Vec3.equals (getScale (state_ e')) v = true).
Proof.
  intros v. split; [reflexivity|].
  exact (proj2 (proj2 (vector_setters_read_back Sample.A Sample.new_world
                         Sample.root_entity eq_refl)) v).
Defined.

(** X14.  A vector with a NaN component is never equal to what is stored,
    not even to itself: [setPosition], [setRotation] and [setScale] called
    with such a value always write it, mark the field's ordinal dirty and
    invalidate the transform, also when the very same value is already
    stored. *)
Theorem vector_setters_always_write_NaN
    (this : ref) (w : World) (e : SpatialEntity) :
  spatial w this = Some e ->
  (forall v : Vec3.t,
     has_NaN3 v ->
     exists e' : SpatialEntity,
       spatial (setPosition this v w) this = Some e' /\
       position_ (state_ e') = v /\
       positionOrdinal_ (state_ e) ∈ dirtyBits (super_ (state_ e')) /\
       transformDirty_ e' = true) /\
  (forall v : Quaternion.t,
     has_NaN4 v ->
     exists e' : SpatialEntity,
       spatial (setRotation this v w) this = Some e' /\
       rotation_ (state_ e') = v /\
       rotationOrdinal_ (state_ e) ∈ dirtyBits (super_ (state_ e')) /\
       transformDirty_ e' = true) /\
  (forall v : Vec3.t,
     has_NaN3 v ->
     exists e' : SpatialEntity,
       spatial (setScale this v w) this = Some e' /\
       scale_ (state_ e') = v /\
       scaleOrdinal_ (state_ e) ∈ dirtyBits (super_ (state_ e')) /\
       transformDirty_ e' = true).
Proof.
  intros He. repeat split; intros v Hv.
  - destruct (setPosition_different_value this v w e He
                (Vec3_equals_NaN _ _ Hv)) as (e' & He' & Hp & Hb & Hd).
    exists e'. rewrite Hb. repeat split; try done.
    apply elem_of_union_l. by apply elem_of_singleton.
  - destruct (setRotation_different_value this v w e He
                (Vec4_equals_NaN _ _ Hv)) as (e' & He' & Hp & Hb & Hd).
    exists e'. rewrite Hb. repeat split; try done.
    apply elem_of_union_l. by apply elem_of_singleton.
  - destruct (setScale_different_value this v w e He
                (Vec3_equals_NaN _ _ Hv)) as (e' & He' & Hp & Hb & Hd).
    exists e'. rewrite Hb. repeat split; try done.
    apply elem_of_union_l. by apply elem_of_singleton.
Qed.

Lemma vector_setters_always_write_NaN_witness :
  let v := (Vec3.make NaN 0 0)%js in
  let w := setScale Sample.A v Sample.clean_world in
  is_Some (spatial w Sample.A) /\
  has_NaN3 v /\
  exists e' : SpatialEntity,
    spatial (setScale Sample.A v (updateTransform Sample.A w)) Sample.A
      = Some e' /\
    transformDirty_ e' = true.
Proof.
  intros v w.
  pose (e := default Sample.root_entity
               (spatial (updateTransform Sample.A w) Sample.A)).
  assert (He : spatial (updateTransform Sample.A w) Sample.A = Some e)
    by (vm_compute; reflexivity).
  assert (Hv : has_NaN3 v) by (by left).
  split.
  { exists (default Sample.root_entity (spatial w Sample.A)).
    vm_compute. reflexivity. }
  split; [exact Hv|].
  destruct (proj2 (proj2 (vector_setters_always_write_NaN Sample.A
                            (updateTransform Sample.A w) e He)) v Hv)
    as (e' & He' & _ & _ & Hd).
  exists e'. split; [exact He'|exact Hd].
Defined.

(** ** Ordinals over the life of an entity *)

Lemma run_all_frame (ops : list Op) (w : World) (r : ref) (e : SpatialEntity) :
  spatial w r = Some e ->
  exists e' : SpatialEntity,
    spatial (run_all ops w) r = Some e' /\
    entity_ e' = entity_ e /\
    ordinals (state_ e') = ordinals (state_ e).
Proof.
  revert w e. induction ops as [|op ops IH]; intros w e He; [by exists e|].
  pose proof (run_spatial op w r e He) as He1.
  destruct (IH _ _ He1) as (e' & He' & Hb & Ho).
  exists e'. split; [exact He'|].
  rewrite Hb, Ho. case_decide; [apply outcome_base|done].
Qed.

(** X16.  Ordinals are fixed at construction.  An entity built by the
    constructors, with its state's ordinals looked up in the variable table
    under the class's four tags, still holds exactly those ordinals, and
    the same parent link, after any sequence of operations on any entities
    of the world. *)
Theorem ordinals_fixed_at_construction
    (tags_ : Tags) (super : EntityState) (variableTable : VariableTable)
    (base : Entity) (ops : list Op) (w : World) (this : ref) :
  spatial w this
  = Some (SpatialEntity_new base (State_new tags_ super variableTable)) ->
  exists e : SpatialEntity,
    spatial (run_all ops w) this = Some e /\
    entity_ e = base /\
    ordinals (state_ e) =
      (getOrdinal variableTable (position tags_),
       getOrdinal variableTable (rotation tags_),
       getOrdinal variableTable (scale tags_),
       getOrdinal variableTable (boundingRadius tags_)).
Proof.
  intros He. destruct (run_all_frame ops w this _ He) as (e & He' & Hb & Ho).
  exists e. split; [exact He'|]. by rewrite Hb, Ho.
Qed.

Lemma ordinals_fixed_at_construction_witness :
  let ops :=
    [SetPosition Sample.A (Vec3.make (JS.of_Z 5) 0 0)%js;
     UpdateTransform Sample.A;
     SetBoundingRadius Sample.A (JS.of_Z 3);
     PostNetworkUpdate Sample.A] in
  spatial Sample.new_world Sample.A = Some Sample.root_entity /\
  exists e : SpatialEntity,
    spatial (run_all ops Sample.new_world) Sample.A = Some e /\
    ordinals (state_ e) = (0%N, 1%N, 2%N, 3%N).
Proof.
  intros ops. split; [reflexivity|].
  destruct (ordinals_fixed_at_construction Sample.tags
              {| dirtyBits := ∅ |} Sample.table
              {| parent_ := None; childTransformed := false |}
              ops Sample.new_world Sample.A eq_refl)
    as (e & He & _ & Ho).
  exists e. split; [exact He|exact Ho].
Defined.

(** ** The registered accessors *)

(** X17.  Each descriptor [declareVariables] appends pairs a getter with
    the setter of the same field: the setter writes, and the getter then
    returns the value passed, exactly when that value is not [==] to what
    the getter returned before (for [boundingRadius]: exactly when the
    value is [!=] to the comparand of the stored radius); otherwise the
    setter leaves the world as it was.  A setter that writes also
    invalidates the transform. *)
Theorem declared_accessors_are_paired
    (tags_ : Tags) (UPDATED_FREQUENTLY INTERPOLATED : Z) (Inherited : Type)
    (EntityState_declareVariables :
       list (Descriptor Inherited) -> list (Descriptor Inherited))
    (variableList : list (Descriptor Inherited)) (d : Descriptor Inherited) :
  d ∈ drop (length (EntityState_declareVariables variableList))
        (declareVariables tags_ UPDATED_FREQUENTLY INTERPOLATED Inherited
           EntityState_declareVariables variableList) ->
  match d with
  | Variable_Vec3 _ _ getter setter =>
      forall (this : ref) (v : Vec3.t) (w : World) (e : SpatialEntity),
        spatial w this = Some e ->
        exists e' : SpatialEntity,
          spatial (setter this v w) this = Some e' /\
          if Vec3.equals (getter (state_ e)) v
          then setter this v w = w /\ e' = e
          else getter (state_ e') = v /\ transformDirty_ e' = true
  | Variable_Quaternion _ _ getter setter _ =>
      forall (this : ref) (v : Quaternion.t) (w : World) (e : SpatialEntity),
        spatial w this = Some e ->
        exists e' : SpatialEntity,
          spatial (setter this v w) this = Some e' /\
          if Vec4.equals (getter (state_ e)) v
          then setter this v w = w /\ e' = e
          else getter (state_ e') = v /\ transformDirty_ e' = true
  | Variable_Float _ _ getter setter =>
      forall (this : ref) (v : number) (w : World) (e : SpatialEntity),
        spatial w this = Some e ->
        exists e' : SpatialEntity,
          spatial (setter this v w) this = Some e' /\
          if JS.ne (radius_comparand (getter (state_ e))) v
          then getter (state_ e') = v /\ transformDirty_ e' = true
          else setter this v w = w /\ e' = e
  | Variable_inherited _ => False
  end.
Proof.
  unfold declareVariables, push. rewrite <- !app_assoc.
  rewrite drop_app_length. simpl. intros Hd.
  repeat (apply elem_of_cons in Hd as [->|Hd]);
    [..|by apply not_elem_of_nil in Hd]; intros this v w e He.
  - rewrite (setPosition_eq _ _ _ _ He). unfold getPosition.
    destruct (Vec3.equals _ _) eqn:Heq; [by exists e|].
    eexists. split; [apply spatial_store_eq|done].
  - rewrite (setRotation_eq _ _ _ _ He). unfold getRotation.
    destruct (Vec4.equals _ _) eqn:Heq; [by exists e|].
    eexists. split; [apply spatial_store_eq|done].
  - rewrite (setScale_eq _ _ _ _ He). unfold getScale.
    destruct (Vec3.equals _ _) eqn:Heq; [by exists e|].
    eexists. split; [apply spatial_store_eq|done].
  - rewrite (setBoundingRadius_eq _ _ _ _ He). unfold getBoundingRadius.
    destruct (JS.ne _ _) eqn:Hne; [|by exists e].
    eexists. split; [apply spatial_store_eq|done].
Qed.

Lemma declared_accessors_are_paired_witness :
  let d : Descriptor Empty_set :=
    Variable_Float (boundingRadius Sample.tags) (Z.lor 1 2)
      getBoundingRadius setBoundingRadius in
  d ∈ drop (length (@nil (Descriptor Empty_set)))
        (declareVariables Sample.tags 1 2 Empty_set (fun l => l) []) /\
  exists e' : SpatialEntity,
    spatial (setBoundingRadius Sample.A (JS.of_Z 3) Sample.new_world)
      Sample.A = Some e' /\
    getBoundingRadius (state_ e') = JS.of_Z 3 /\
    transformDirty_ e' = true.
Proof.
  intros d.
  assert (Hd : d ∈ drop (length (@nil (Descriptor Empty_set)))
                 (declareVariables Sample.tags 1 2 Empty_set (fun l => l) [])).
  { simpl. unfold declareVariables, push. simpl.
    do 3 (apply elem_of_cons; right). apply elem_of_cons. by left. }
  split; [exact Hd|].
  exact (declared_accessors_are_paired Sample.tags 1 2 Empty_set
           (fun l => l) [] d Hd Sample.A (JS.of_Z 3)
           Sample.new_world Sample.root_entity eq_refl).
Defined.

(** * Calls that pass a state's own array as result *)

Lemma placed_world_consistent : world_consistent Sample.placed_world.
Proof.
  assert (Hrun : Sample.placed_world =
    run_all
      [SetScale Sample.A (Vec3.make 2 1 1)%js;
       SetRotation Sample.A (Vec4.make 0 0 0 1)%js;
       SetPosition Sample.A (Vec3.make (JS.of_Z 5) 0 0)%js;
       SetBoundingRadius Sample.A (JS.of_Z 3);
       UpdateTransform Sample.A] Sample.new_world)
    by (vm_compute; reflexivity).
  rewrite Hrun. apply run_all_consistent, new_world_consistent.
Qed.

(** With an array of the caller's own, [getBoundingSphere_at] is
    [getBoundingSphere]. *)
Lemma getBoundingSphere_at_own (this : ref) (result : Vec4.t) (w : World) :
  getBoundingSphere_at this (Own result) w =
  (Own (fst (getBoundingSphere this result w)),
   snd (getBoundingSphere this result w)).
Proof.
  unfold getBoundingSphere_at, getBoundingSphere.
  destruct (spatial w this) as [e|]; [|done].
  by destruct (spatial _ this).
Qed.

(** With the rotation array of [owner], the call first brings [this] up to
    date and then overwrites the rotation of [owner] with the sphere of
    [this]; it touches neither the dirty bits nor the dirty flag of
    [owner]. *)
Lemma getBoundingSphere_into_rotation
    (this owner : ref) (w : World) (t o : SpatialEntity) :
  spatial w this = Some t ->
  spatial w owner = Some o ->
  let t1 := if transformDirty_ t then recomputed t else t in
  let o1 := if decide (this = owner) then t1 else o in
  heap (call (GetBoundingSphereInto this owner) w) =
  <[ owner :=
       Spatial (set_state_ (set_rotation_ (cached_sphere t) (state_ o1)) o1) ]>
    (<[ this := Spatial t1 ]> (heap w)).
Proof.
  intros Ht Ho t1 o1. unfold call, getBoundingSphere_at. rewrite Ht.
  rewrite (read_outcome _ _ _ Ht). fold t1.
  set (w1 := {| heap := <[ this := Spatial t1 ]> (heap w); trace := _ |}).
  assert (Ht1 : spatial w1 this = Some t1).
  { apply spatial_lookup. subst w1; simpl. apply lookup_insert_eq. }
  assert (Ho1 : spatial w1 owner = Some o1).
  { apply spatial_lookup. subst w1 o1; simpl. rewrite lookup_insert.
    case_decide; [done|]. by apply spatial_lookup. }
  rewrite Ht1. cbn [snd]. rewrite (modify_eq _ _ _ _ Ho1). simpl.
  do 3 f_equal. subst t1. unfold cached_sphere.
  destruct (transformDirty_ t); simpl;
    [by destruct (sphere_of _)|by destruct (boundingSphere_ t)].
Qed.

(** C3 as stated fails.  On a clean entity whose caches are consistent,
    [e.getBoundingSphere(e.getState().getRotation())] overwrites the
    rotation with the sphere and leaves the entity clean: a value the
    transform depends on has changed, [transformDirty_] is still false, and
    the cached matrix is no longer the one the state determines. *)
Lemma getBoundingSphere_into_own_rotation_breaks_cache :
  let c := GetBoundingSphereInto Sample.A Sample.A in
  world_consistent Sample.placed_world /\
  exists e e' : SpatialEntity,
    spatial Sample.placed_world Sample.A = Some e /\
    spatial (call c Sample.placed_world) Sample.A = Some e' /\
    transformDirty_ e = false /\
    rotation_ (state_ e) = (Vec4.make 0 0 0 1)%js /\
    rotation_ (state_ e') = (Vec4.make (JS.of_Z 5) 0 0 (JS.of_Z 6))%js /\
    transform_values (state_ e') <> transform_values (state_ e) /\
    transformDirty_ e' = false /\
    transform_ e' <> matrix_of (state_ e') /\
    ~ world_consistent (call c Sample.placed_world).
Proof.
  intros c. split; [exact placed_world_consistent|].
  pose (e := default Sample.root_entity
               (spatial Sample.placed_world Sample.A)).
  pose (e' := default Sample.root_entity
                (spatial (call c Sample.placed_world) Sample.A)).
  assert (He : spatial Sample.placed_world Sample.A = Some e)
    by (vm_compute; reflexivity).
  assert (He' : spatial (call c Sample.placed_world) Sample.A = Some e')
    by (vm_compute; reflexivity).
  assert (Hd' : transformDirty_ e' = false) by (vm_compute; reflexivity).
  assert (Hm : transform_ e' <> matrix_of (state_ e')) by compute_done.
  exists e, e'. split; [exact He|]. split; [exact He'|].
  split; [vm_compute; reflexivity|].
  split; [compute_done|]. split; [compute_done|].
  split; [compute_done|]. split; [exact Hd'|]. split; [exact Hm|].
  intros Hw. exact (Hm (proj2 (Hw Sample.A e' He' Hd'))).
Qed.

(** C3, amended.  The invariant "a clean entity caches exactly the bounding
    sphere and matrix its current state determines" is preserved, for every
    entity of the world, by every operation of the entity and of its state
    that is not handed a state's own array as [result]; and such an
    operation, when it changes an entity's position, rotation, scale or
    bounding radius, leaves that entity's transform dirty. *)
Theorem transform_cache_invariant (c : Call) (w : World) :
  own_result c ->
  world_consistent w ->
  world_consistent (call c w) /\
  forall (r : ref) (e e' : SpatialEntity),
    spatial w r = Some e -> spatial (call c w) r = Some e' ->
    transform_values (state_ e') <> transform_values (state_ e) ->
    transformDirty_ e' = true.
Proof.
  destruct c as [op|this owner]; [intros _ Hw|intros []].
  split; [by apply run_consistent|].
  intros r e e'. apply run_change_dirties.
Qed.

Lemma transform_cache_invariant_witness :
  let c := Do (SetRotation Sample.A (Vec4.make 1 0 0 0)%js) in
  own_result c /\
  world_consistent Sample.placed_world /\
  world_consistent (call c Sample.placed_world).
Proof.
  intros c. split; [exact I|]. split; [exact placed_world_consistent|].
  exact (proj1 (transform_cache_invariant c Sample.placed_world I
                  placed_world_consistent)).
Defined.

(** X9.  With arrays of the caller's own, only the four setters change
    replicated state: [updateTransform], [getBoundingSphere],
    [getTransform], [invalidateTransform], [postNetworkUpdate] and the
    getters leave every field of every state, values and dirty bits alike,
    as they found it.  But [this.getBoundingSphere] handed the array that
    [owner.getState().getRotation()] returned does change state: it
    overwrites the rotation of [owner] with the bounding sphere of [this],
    leaves every other field and every dirty bit as it was, and does not
    invalidate the transform of [owner]; the entity it was called on is
    left clean. *)
Theorem only_setters_change_state
    (c : Call) (w : World) (r : ref) (e e' : SpatialEntity) :
  spatial w r = Some e ->
  spatial (call c w) r = Some e' ->
  match c with
  | Do op => is_setter op = false -> state_ e' = state_ e
  | GetBoundingSphereInto this owner =>
      forall t : SpatialEntity,
        spatial w this = Some t ->
        state_ e' =
          (if decide (r = owner)
           then set_rotation_ (cached_sphere t) (state_ e)
           else state_ e) /\
        transformDirty_ e' =
          (if decide (r = this) then false else transformDirty_ e)
  end.
Proof.
  intros He He'. destruct c as [op|this owner].
  - intros Hop. simpl in He'. rewrite (run_spatial _ _ _ _ He) in He'.
    injection He' as <-. case_decide; [by apply outcome_state|done].
  - intros t Ht.
    set (t1 := if transformDirty_ t then recomputed t else t).
    assert (Hs1 : state_ t1 = state_ t)
      by (subst t1; by destruct (transformDirty_ t)).
    assert (Hd1 : transformDirty_ t1 = false)
      by (subst t1; by destruct (transformDirty_ t) eqn:Hd).
    destruct (spatial w owner) as [o|] eqn:Ho.
    + apply spatial_lookup in He'.
      rewrite (getBoundingSphere_into_rotation _ _ _ _ _ Ht Ho) in He'.
      fold t1 in He'. rewrite lookup_insert in He'.
      destruct (decide (owner = r)) as [->|Hro].
      * injection He' as <-. rewrite (decide_True (P := r = r)) by done.
        assert (o = e) as -> by congruence.
        destruct (decide (this = r)) as [->|Htr]; simpl.
        -- assert (t = e) as -> by congruence.
           by rewrite Hs1, Hd1, decide_True.
        -- by rewrite (decide_False (P := r = this)) by congruence.
      * rewrite (decide_False (P := r = owner)) by congruence.
        rewrite lookup_insert in He'.
        destruct (decide (this = r)) as [->|Htr].
        -- injection He' as <-. rewrite (decide_True (P := r = r)) by done.
           assert (t = e) as -> by congruence. by rewrite Hs1, Hd1.
        -- rewrite (decide_False (P := r = this)) by congruence.
           apply spatial_lookup in He'. split; congruence.
    + assert (Hro : r <> owner) by (intros ->; congruence).
      rewrite decide_False by done.
      unfold call, getBoundingSphere_at in He'. rewrite Ht in He'.
      rewrite (read_outcome _ _ _ Ht) in He'. fold t1 in He'.
      set (w1 := {| heap := <[ this := Spatial t1 ]> (heap w);
                    trace := _ |}) in He'.
      assert (Ht1 : spatial w1 this = Some t1).
      { apply spatial_lookup. subst w1; simpl. apply lookup_insert_eq. }
      assert (Ho1 : spatial w1 owner = None).
      { unfold spatial. subst w1; simpl. rewrite lookup_insert.
        case_decide as Hto; [subst owner; congruence|exact Ho]. }
      rewrite Ht1 in He'. cbn [snd] in He'.
      unfold modify in He'. rewrite Ho1 in He'.
      apply spatial_lookup in He'. subst w1; simpl in He'.
      rewrite lookup_insert in He'.
      destruct (decide (this = r)) as [->|Htr].
      * injection He' as <-. rewrite (decide_True (P := r = r)) by done.
        assert (t = e) as -> by congruence. by rewrite Hs1, Hd1.
      * rewrite (decide_False (P := r = this)) by congruence.
        apply spatial_lookup in He'. split; congruence.
Qed.

Lemma only_setters_change_state_witness :
  let c := GetBoundingSphereInto Sample.A Sample.A in
  exists e e' : SpatialEntity,
    spatial Sample.placed_world Sample.A = Some e /\
    spatial (call c Sample.placed_world) Sample.A = Some e' /\
    state_ e' = set_rotation_ (cached_sphere e) (state_ e) /\
    transformDirty_ e' = false.
Proof.
  intros c.
  pose (e := default Sample.root_entity
               (spatial Sample.placed_world Sample.A)).
  pose (e' := default Sample.root_entity
                (spatial (call c Sample.placed_world) Sample.A)).
  assert (He : spatial Sample.placed_world Sample.A = Some e)
    by (vm_compute; reflexivity).
  assert (He' : spatial (call c Sample.placed_world) Sample.A = Some e')
    by (vm_compute; reflexivity).
  exists e, e'. split; [exact He|]. split; [exact He'|].
  exact (only_setters_change_state c Sample.placed_world Sample.A e e'
           He He' e He).
Defined.
